(** * AI Handwritten Reader: the two API routes and the client page

    A shallow embedding of

    - [src/pages/api/extract.js]   (module [Extract]),
    - [src/pages/api/summarize.js] (module [Summarize]),
    - [src/app/page.tsx]           (module [Page]),

    together with the JavaScript notions the three files rely on (module
    [Js]).  Third-party libraries (formidable, sharp, the Gemini client,
    [fs], jsPDF, [fetch]) are not part of the repository: each handler takes
    their observable behaviour as a [Platform] record of functions, and
    records every call it makes to them in a trace of events. *)

From Stdlib Require Import ZArith QArith Lia Lqa List Ascii String.
From stdpp Require Import gmap strings list.

Set Warnings "-register-all".

Local Open Scope string_scope.
Local Open Scope Z_scope.

(* ===================================================================== *)
(** ** JavaScript values, strings and property lookup                     *)
(* ===================================================================== *)

Module Js.

(** The values the handlers can observe.  [Builtin name] stands for a member
    that a plain object inherits from [Object.prototype]: a function such as
    [constructor], or the prototype object itself for [__proto__]. *)
Inductive value : Type :=
| Undefined
| Null
| Bool (b : bool)
| Num (n : Z)
| Str (s : string)
| Arr (items : list value)
| Obj (props : list (string * value))
| Builtin (name : string).

(** [a ?? b]. *)
Definition nullish (a b : value) : value :=
  match a with
  | Undefined | Null => b
  | _ => a
  end.

(** [typeof v === "string"]. *)
Definition is_string (v : value) : bool :=
  match v with Str _ => true | _ => false end.

(** [a[i]] on an array: [undefined] out of range. *)
Definition index (items : list value) (i : nat) : value :=
  nth i items Undefined.

(** Own properties of an object literal or of a parsed JSON object, in
    insertion order. *)
Fixpoint own_property {A : Type} (props : list (string * A)) (key : string)
  : option A :=
  match props with
  | [] => None
  | (k, v) :: rest => if String.eqb k key then Some v else own_property rest key
  end.

(** The names every plain object inherits from [Object.prototype]. *)
Definition Object_prototype : list string :=
  [ "constructor"; "__defineGetter__"; "__defineSetter__"; "hasOwnProperty";
    "__lookupGetter__"; "__lookupSetter__"; "isPrototypeOf";
    "propertyIsEnumerable"; "toString"; "valueOf"; "__proto__";
    "toLocaleString" ].

Definition inherited (key : string) : bool :=
  existsb (String.eqb key) Object_prototype.

(** [obj[key]] on a plain object: the own property if there is one, else
    the inherited member, else [undefined]. *)
Definition member (props : list (string * value)) (key : string) : value :=
  match own_property props key with
  | Some v => v
  | None => if inherited key then Builtin key else Undefined
  end.

(** [v[key]] for a string key, on any value that is not nullish.  Strings,
    numbers, booleans and arrays have no own property under the names the
    handlers read ([text], [mode], [language]); these names are not
    inherited either. *)
Definition get (v : value) (key : string) : value :=
  match v with
  | Obj props => member props key
  | _ => Undefined
  end.

(** *** Strings

    A string is modelled as the sequence of its characters in the Latin-1
    range.  Case mapping and white space are those of that range; the five
    language codes and the two mode names are ASCII, and no character
    outside ASCII lowercases to one of the letters they are made of.

    [String.prototype.trim] also strips the white space beyond Latin-1
    (U+1680, U+2000 to U+200A, U+2028, U+2029, U+202F, U+205F, U+3000 and
    U+FEFF), which no modelled string holds.  A text that is white space
    here is white space for JavaScript; the converse is not claimed: where
    a property needs a text that is not trimmed to nothing, it says so
    through [trim] itself, not through the characters of the text. *)

Definition lower (c : ascii) : ascii :=
  let n := nat_of_ascii c in
  if ((65 <=? n)%nat && (n <=? 90)%nat)%bool then ascii_of_nat (n + 32)
  else if ((192 <=? n)%nat && (n <=? 222)%nat && negb (n =? 215)%nat)%bool
       then ascii_of_nat (n + 32)
       else c.

Fixpoint toLowerCase (s : string) : string :=
  match s with
  | EmptyString => EmptyString
  | String c rest => String (lower c) (toLowerCase rest)
  end.

(** White space and line terminators of the Latin-1 range: TAB, LF, VT, FF,
    CR, SP, NBSP. *)
Definition is_space (c : ascii) : bool :=
  let n := nat_of_ascii c in
  (((9 <=? n)%nat && (n <=? 13)%nat) || (n =? 32)%nat || (n =? 160)%nat)%bool.

Fixpoint trimStart (s : string) : string :=
  match s with
  | EmptyString => EmptyString
  | String c rest => if is_space c then trimStart rest else s
  end.

(** [trimEnd] keeps a character when it is not a space or when something
    that is kept follows it. *)
Fixpoint trimEnd (s : string) : string :=
  match s with
  | EmptyString => EmptyString
  | String c rest =>
      match trimEnd rest with
      | EmptyString => if is_space c then EmptyString else String c EmptyString
      | kept => String c kept
      end
  end.

Definition trim (s : string) : string := trimEnd (trimStart s).

(** *** Exceptions

    A thrown value, as far as the handlers look at it: [error.message],
    which is [undefined] for a thrown value that is not an [Error]. *)
Record Error : Type := mkError { message : option string }.

Definition new_Error (msg : string) : Error := mkError (Some msg).

(** [error.message ?? fallback]. *)
Definition message_or (e : Error) (fallback : string) : string :=
  match message e with
  | Some m => m
  | None => fallback
  end.

(** The completion of a call: a value, or a thrown exception (a rejected
    promise under [await]). *)
Inductive Completion (A : Type) : Type :=
| Normal (a : A)
| Thrown (e : Error).
Arguments Normal {A} a.
Arguments Thrown {A} e.

End Js.

(* ===================================================================== *)
(** ** The platform the handlers run on                                   *)
(* ===================================================================== *)

Module Platform.
Import Js.

Definition Buffer : Type := list Byte.byte.

(** [buffer.toString("base64")]. *)
Definition base64_alphabet : string :=
  "ABCDEFGHIJKLMNOPQRSTUVWXYZabcdefghijklmnopqrstuvwxyz0123456789+/".

Definition sextet (n : N) : ascii :=
  match String.get (N.to_nat (N.land n 63)) base64_alphabet with
  | Some c => c
  | None => "="%char
  end.

Fixpoint base64 (b : Buffer) : string :=
  match b with
  | [] => ""
  | [b0] =>
      let n := N.shiftl (Byte.to_N b0) 16 in
      String (sextet (N.shiftr n 18)) (String (sextet (N.shiftr n 12)) "==")
  | [b0; b1] =>
      let n := N.lor (N.shiftl (Byte.to_N b0) 16) (N.shiftl (Byte.to_N b1) 8) in
      String (sextet (N.shiftr n 18)) (String (sextet (N.shiftr n 12))
        (String (sextet (N.shiftr n 6)) "="))
  | b0 :: b1 :: b2 :: rest =>
      let n := N.lor (N.lor (N.shiftl (Byte.to_N b0) 16)
                            (N.shiftl (Byte.to_N b1) 8)) (Byte.to_N b2) in
      String (sextet (N.shiftr n 18)) (String (sextet (N.shiftr n 12))
        (String (sextet (N.shiftr n 6)) (String (sextet n) (base64 rest))))
  end.

(** A file that formidable wrote to the temporary directory. *)
Record File : Type := mkFile { filepath : string; size : Z }.

(** One entry of formidable's [files] object: a single file, or an array of
    files. *)
Inductive FileField : Type :=
| OneFile (f : File)
| FileArray (fs : list File).

(** What [form.parse] hands to its callback on success.  Both objects are
    listed in the order [Object.keys] enumerates them. *)
Record ParsedForm : Type := mkParsedForm {
  fields : option (list (string * value));
  files : option (list (string * FileField))
}.

(** The options object given to [formidable(...)]. *)
Record FormidableOptions : Type := mkFormidableOptions {
  multiples : bool;
  keepExtensions : bool;
  maxFileSize : Z
}.

(** The operations chained on a [sharp] instance; none takes an argument in
    the source. *)
Inductive SharpOp : Type := grayscale | normalize | png.

(** One element of [contents[0].parts] in a [generateContent] request. *)
Inductive Part : Type :=
| TextPart (text : value)
| InlineData (data : string) (mimeType : string).

(** What [model.generateContent] does: it rejects, or resolves to a result
    whose [response] is missing, or to one whose [response.text()] returns
    a string or throws. *)
Inductive GenerateOutcome : Type :=
| Rejects (e : Error)
| NoResponse
| Response (text : Completion string).

(** An incoming request of the extraction route.  The multipart body is
    read by formidable only; [upload_size] is the size in bytes of the file
    it carries. *)
Record UploadRequest : Type := mkUploadRequest {
  upload_method : string;
  upload_size : Z
}.

(** An incoming request of the transform route; [body] is [req.body] as
    the framework's JSON body parser left it. *)
Record JsonRequest : Type := mkJsonRequest {
  json_method : string;
  body : value
}.

(** The libraries and the process environment. *)
Record t : Type := mkPlatform {
  process_env : gmap string string;
  form_parse : FormidableOptions -> UploadRequest -> Completion ParsedForm;
  fs_readFile : string -> Completion Buffer;
  sharp_toBuffer : list SharpOp -> Buffer -> Completion Buffer;
  generateContent : string -> string -> list Part -> GenerateOutcome;
  fs_unlink : string -> option Error
}.

(** Everything a handler does to the outside world, in order. *)
Inductive Event : Type :=
| FormParse (options : FormidableOptions)
| ReadFile (path : string)
| SharpToBuffer (ops : list SharpOp)
| GenerateContent (apiKey model : string) (parts : list Part)
| Unlink (path : string)
| SetHeader (name val : string)
| Respond (status : Z) (json : list (string * value))
| ConsoleError (label : string)
| ConsoleWarn (label : string).

Definition paths_of (ff : FileField) : list string :=
  match ff with
  | OneFile f => [filepath f]
  | FileArray fs => map filepath fs
  end.

(** The files a successful parse left in the temporary directory. *)
Definition temp_files (p : ParsedForm) : list string :=
  match files p with
  | Some entries => concat (map (fun e => paths_of (snd e)) entries)
  | None => []
  end.

(** The state a handler run threads: the handler's own mutable variables
    ([let] declarations assigned after their declaration), the files in the
    temporary directory, and the events so far, oldest first. *)
Record World (L : Type) : Type := mkWorld {
  locals : L;
  disk : gset string;
  trace : list Event
}.
Arguments mkWorld {L} locals disk trace.
Arguments locals {L} w.
Arguments disk {L} w.
Arguments trace {L} w.

(** A computation that may throw and that changes the world. *)
Definition Run (L A : Type) : Type := World L -> Completion A * World L.

Section Run.
Context {L : Type}.

Definition ret {A} (a : A) : Run L A := fun w => (Normal a, w).

Definition throw {A} (e : Error) : Run L A := fun w => (Thrown e, w).

Definition bind {A B} (m : Run L A) (k : A -> Run L B) : Run L B :=
  fun w =>
    match m w with
    | (Normal a, w') => k a w'
    | (Thrown e, w') => (Thrown e, w')
    end.

(** [try { body } catch (error) { handler }]. *)
Definition try_catch {A} (body : Run L A) (handler : Error -> Run L A)
  : Run L A :=
  fun w =>
    match body w with
    | (Normal a, w') => (Normal a, w')
    | (Thrown e, w') => handler e w'
    end.

(** [try { body } finally { cleanup }]: the cleanup runs on every
    completion of the body; if it throws, its exception replaces the
    body's completion. *)
Definition try_finally {A} (body : Run L A) (cleanup : Run L unit)
  : Run L A :=
  fun w =>
    match body w with
    | (c, w') =>
        match cleanup w' with
        | (Normal _, w'') => (c, w'')
        | (Thrown e, w'') => (Thrown e, w'')
        end
    end.

Definition read_locals : Run L L := fun w => (Normal (locals w), w).

Definition write_locals (l : L) : Run L unit :=
  fun w => (Normal tt, mkWorld l (disk w) (trace w)).

Definition emit (e : Event) : Run L unit :=
  fun w => (Normal tt, mkWorld (locals w) (disk w) (trace w ++ [e])%list).

(** A library call that may reject. *)
Definition lift {A} (c : Completion A) : Run L A :=
  fun w => (c, w).

(** [res.setHeader(name, val)] and [res.status(code).json(body)]. *)
Definition setHeader (name val : string) : Run L unit :=
  emit (SetHeader name val).

Definition respond (status : Z) (json : list (string * value)) : Run L unit :=
  emit (Respond status json).

(** [form.parse]: on success the files it reports are in the temporary
    directory. *)
Definition parse (pf : t) (options : FormidableOptions) (req : UploadRequest)
  : Run L ParsedForm :=
  fun w =>
    let events := (trace w ++ [FormParse options])%list in
    match form_parse pf options req with
    | Normal p =>
        (Normal p, mkWorld (locals w) (disk w ∪ list_to_set (temp_files p)) events)
    | Thrown e => (Thrown e, mkWorld (locals w) (disk w) events)
    end.

(** [fs.readFile(path)]. *)
Definition readFile (pf : t) (path : string) : Run L Buffer :=
  bind (emit (ReadFile path)) (fun _ => lift (fs_readFile pf path)).

(** [fs.unlink(path)]: removes the file, or rejects and leaves it. *)
Definition unlink (pf : t) (path : string) : Run L unit :=
  fun w =>
    let events := (trace w ++ [Unlink path])%list in
    match fs_unlink pf path with
    | None => (Normal tt, mkWorld (locals w) (disk w ∖ {[path]}) events)
    | Some e => (Thrown e, mkWorld (locals w) (disk w) events)
    end.

End Run.

End Platform.

Notation "'let*' x := m 'in' k" := (Platform.bind m (fun x => k))
  (at level 10, x name, m at level 100, k at level 200, only parsing).

(* ===================================================================== *)
(** ** src/pages/api/extract.js                                           *)
(* ===================================================================== *)

Module Extract.
Import Js Platform.

Definition FORM_FILE_FIELDS : list string := ["file"; "image"; "document"].

(** [fileField] is [files[name]]: absent, one file, or an array. *)
Definition normalizeFormFile (fileField : option FileField) : option File :=
  match fileField with
  | None => None
  | Some (FileArray fs) => head fs
  | Some (OneFile f) => Some f
  end.

Definition formidable_options : FormidableOptions :=
  {| multiples := false;
     keepExtensions := false;
     maxFileSize := 25 * 1024 * 1024 |}.

(** The handler's one mutable variable, [let uploadedFile;]. *)
Definition Locals : Type := option File.

Definition parseMultipartRequest (pf : Platform.t) (req : UploadRequest)
  : Run Locals ParsedForm :=
  parse pf formidable_options req.

Definition cleanImage (pf : Platform.t) (buffer : Buffer) : Run Locals Buffer :=
  let ops := [grayscale; normalize; png] in
  let* _ := emit (SharpToBuffer ops) in
  lift (sharp_toBuffer pf ops buffer).

Definition prompt_auto : string :=
  "Extract the handwritten text from this document. Detect the language automatically and respond only with the transcribed text.".
Definition prompt_en : string :=
  "Extract and transcribe the handwritten text in English. Respond with the best English transcription.".
Definition prompt_hi : string :=
  "Extract and transcribe the handwritten text in Hindi using Devanagari script.".
Definition prompt_mr : string :=
  "Extract and transcribe the handwritten text in Marathi using Devanagari script.".
Definition prompt_es : string :=
  "Extract and transcribe the handwritten text in Spanish. Respond in Spanish.".

Definition LANGUAGE_PROMPTS : list (string * value) :=
  [ ("auto", Str prompt_auto);
    ("en", Str prompt_en);
    ("hi", Str prompt_hi);
    ("mr", Str prompt_mr);
    ("es", Str prompt_es) ].

(** [process.env.GEMINI_API_KEY ?? process.env.NEXT_PUBLIC_GEMINI_API_KEY ?? ""]:
    a variable that is set, even to the empty string, is not nullish. *)
Definition getGeminiApiKey (pf : Platform.t) : string :=
  match process_env pf !! "GEMINI_API_KEY" with
  | Some key => key
  | None =>
      match process_env pf !! "NEXT_PUBLIC_GEMINI_API_KEY" with
      | Some key => key
      | None => ""
      end
  end.

(** [LANGUAGE_PROMPTS[language] ?? LANGUAGE_PROMPTS.auto]. *)
Definition prompt_for (language : string) : value :=
  nullish (member LANGUAGE_PROMPTS language) (member LANGUAGE_PROMPTS "auto").

Definition model_name : string := "gemini-2.5-flash".

Definition extractTextFromImage (pf : Platform.t) (imageBuffer : Buffer)
  (language : string) : Run Locals string :=
  let apiKey := getGeminiApiKey pf in
  if String.eqb apiKey "" then
    throw (new_Error "Missing GEMINI_API_KEY environment variable")
  else
    let base64Image := base64 imageBuffer in
    let prompt := prompt_for language in
    let parts := [TextPart prompt; InlineData base64Image "image/png"] in
    let* _ := emit (GenerateContent apiKey model_name parts) in
    match generateContent pf apiKey model_name parts with
    | Rejects e => throw e
    | NoResponse => throw (new_Error "No response received from Gemini")
    | Response (Thrown e) => throw e
    | Response (Normal text) =>
        if String.eqb text "" then
          throw (new_Error "Gemini returned an empty response")
        else ret (trim text)
    end.

(** [files?.[field]]: the three field names and the keys [Object.keys]
    returns are never names inherited from [Object.prototype], so the own
    properties decide. *)
Definition files_entry (files : option (list (string * FileField)))
  (field : string) : option FileField :=
  match files with
  | Some entries => own_property entries field
  | None => None
  end.

(** [uploadedFile?.filepath], as a condition. *)
Definition has_filepath (uploadedFile : Locals) : bool :=
  match uploadedFile with
  | Some f => negb (String.eqb (filepath f) "")
  | None => false
  end.

(** [for (const field of FORM_FILE_FIELDS) { if (files?.[field]) { ...; break; } }] *)
Fixpoint scan_fields (names : list string)
  (files : option (list (string * FileField))) : Run Locals unit :=
  match names with
  | [] => ret tt
  | field :: rest =>
      match files_entry files field with
      | Some entry => write_locals (normalizeFormFile (Some entry))
      | None => scan_fields rest files
      end
  end.

(** [Object.keys(files)[0]], then [files[firstFileKey]]; with no key at all
    the lookup is [files[undefined]], which is [undefined]. *)
Definition first_file (entries : list (string * FileField)) : option FileField :=
  match entries with
  | [] => None
  | (firstFileKey, _) :: _ => own_property entries firstFileKey
  end.

(** [fields?.language]. *)
Definition languageField (fields : option (list (string * value))) : value :=
  match fields with
  | Some props => member props "language"
  | None => Undefined
  end.

(** [Array.isArray(languageField) ? languageField[0] : languageField]. *)
Definition languageValue (fields : option (list (string * value))) : value :=
  match languageField fields with
  | Arr items => index items 0
  | other => other
  end.

(** [typeof languageValue === "string" ? languageValue.toLowerCase() : "auto"]. *)
Definition language_of (fields : option (list (string * value))) : string :=
  match languageValue fields with
  | Str s => toLowerCase s
  | _ => "auto"
  end.

(** Lines 111 to 124: the choice of [uploadedFile]. *)
Definition select_upload (files : option (list (string * FileField)))
  : Run Locals unit :=
  let* _ := scan_fields FORM_FILE_FIELDS files in
  let* uploadedFile := read_locals in
  if has_filepath uploadedFile then ret tt
  else
    match files with
    | Some entries => write_locals (normalizeFormFile (first_file entries))
    | None => ret tt
    end.

(** Lines 126 to 138: the missing-file check and the work on the file. *)
Definition process_upload (pf : Platform.t) (form : ParsedForm)
  : Run Locals unit :=
  let* uploadedFile := read_locals in
  match uploadedFile with
  | Some file =>
      if has_filepath uploadedFile then
        let* originalBuffer := readFile pf (filepath file) in
        let* cleanedBuffer := cleanImage pf originalBuffer in
        let language := language_of (fields form) in
        let* text := extractTextFromImage pf cleanedBuffer language in
        respond 200 [("text", Str text)]
      else respond 400 [("error", Str "No image file uploaded")]
  | None => respond 400 [("error", Str "No image file uploaded")]
  end.

(** The body of the [try] block. *)
Definition handler_try (pf : Platform.t) (req : UploadRequest)
  : Run Locals unit :=
  let* form := parseMultipartRequest pf req in
  let* _ := select_upload (files form) in
  process_upload pf form.

(** The [catch] block. *)
Definition handler_catch (error : Error) : Run Locals unit :=
  let* _ := emit (ConsoleError "/api/extract error") in
  respond 500 [("error", Str (message_or error "Unexpected error"))].

(** The [finally] block. *)
Definition handler_finally (pf : Platform.t) : Run Locals unit :=
  let* uploadedFile := read_locals in
  match uploadedFile with
  | Some file =>
      if has_filepath uploadedFile then
        try_catch (unlink pf (filepath file))
                  (fun unlinkError => emit (ConsoleWarn "Failed to remove temp file"))
      else ret tt
  | None => ret tt
  end.

Definition handler (pf : Platform.t) (req : UploadRequest) : Run Locals unit :=
  if negb (String.eqb (upload_method req) "POST") then
    let* _ := setHeader "Allow" "POST" in
    respond 405 [("error", Str "Method Not Allowed")]
  else
    try_finally (try_catch (handler_try pf req) handler_catch)
                (handler_finally pf).

(** One request served from a given temporary directory: the world the
    handler leaves behind. *)
Definition serve (pf : Platform.t) (req : UploadRequest) (tmp : gset string)
  : World Locals :=
  snd (handler pf req (mkWorld None tmp [])).

(** The prompt the endpoint resolves for a parsed [fields] object. *)
Definition resolved_prompt (fields : option (list (string * value))) : value :=
  prompt_for (language_of fields).

(** *** Loading the module

    What the module exports: [config] and, as default, [handler]. *)
Record Exports : Type := mkExports {
  export_config : value;
  export_default : UploadRequest -> Run Locals unit
}.

(** The top level of the module, evaluated once when the server loads the
    route, before any request is served.  Lines 6 to 10 bind [config] to an
    object literal, lines 12 and 44 to 50 bind [FORM_FILE_FIELDS] and
    [LANGUAGE_PROMPTS] to literals, everything else declares a function.
    No function is called at this point and [process.env] is not read:
    [getGeminiApiKey] is called from [extractTextFromImage] only.  The
    imports of lines 1 to 4 are the libraries' own code. *)
Definition load (pf : Platform.t) : Run unit Exports :=
  let config := Obj [("api", Obj [("bodyParser", Bool false)])] in
  ret (mkExports config (handler pf)).

End Extract.

(* ===================================================================== *)
(** ** src/pages/api/summarize.js                                         *)
(* ===================================================================== *)

Module Summarize.
Import Js Platform.

(** [new Set(["summarize", "rewrite"])]. *)
Definition ALLOWED_MODES : gset string := {[ "summarize"; "rewrite" ]}.

(** [ALLOWED_MODES.has(mode)]: only a string is the same value as a member
    of a set of strings. *)
Definition has (set : gset string) (v : value) : bool :=
  match v with
  | Str s => bool_decide (s ∈ set)
  | _ => false
  end.

Definition getGeminiApiKey (pf : Platform.t) : string :=
  match process_env pf !! "GEMINI_API_KEY" with
  | Some key => key
  | None =>
      match process_env pf !! "NEXT_PUBLIC_GEMINI_API_KEY" with
      | Some key => key
      | None => ""
      end
  end.

Definition prompt_summarize : string :=
  "Provide a concise summary of the following handwritten transcription. Return clear paragraphs.".
Definition prompt_rewrite : string :=
  "Rewrite the following handwritten transcription into polished, easy-to-read prose while preserving meaning.".

Definition newline : string := String (ascii_of_nat 10) EmptyString.

(** The separator of the template literal: two line feeds, three dashes,
    two line feeds. *)
Definition separator : string :=
  newline ++ newline ++ "---" ++ newline ++ newline.

Definition model_name : string := "gemini-2.5-flash".

(** The handler has no variable that it assigns after declaring it. *)
Definition Locals : Type := unit.

Definition processTextWithGemini (pf : Platform.t) (text : string)
  (mode : value) : Run Locals string :=
  let apiKey := getGeminiApiKey pf in
  if String.eqb apiKey "" then
    throw (new_Error "Missing GEMINI_API_KEY environment variable")
  else
    let systemPrompt :=
      match mode with
      | Str m => if String.eqb m "summarize" then prompt_summarize else prompt_rewrite
      | _ => prompt_rewrite
      end in
    let parts := [TextPart (Str (systemPrompt ++ separator ++ text))] in
    let* _ := emit (GenerateContent apiKey model_name parts) in
    match generateContent pf apiKey model_name parts with
    | Rejects e => throw e
    | NoResponse => throw (new_Error "No response received from Gemini")
    | Response (Thrown e) => throw e
    | Response (Normal processedText) =>
        if String.eqb processedText "" then
          throw (new_Error "Gemini returned an empty response")
        else ret (trim processedText)
    end.

(** [const { text, mode } = req.body ?? {};] *)
Definition request_text (req : JsonRequest) : value :=
  get (nullish (body req) (Obj [])) "text".

Definition request_mode (req : JsonRequest) : value :=
  get (nullish (body req) (Obj [])) "mode".

(** The body of the [try] block. *)
Definition handler_try (pf : Platform.t) (req : JsonRequest)
  : Run Locals unit :=
  let text := request_text req in
  let mode := request_mode req in
  match text with
  | Str t =>
      if String.eqb (trim t) "" then
        respond 400 [("error", Str "Request must include non-empty 'text'")]
      else if negb (has ALLOWED_MODES mode) then
        respond 400 [("error", Str "Mode must be either 'summarize' or 'rewrite'")]
      else
        let* processedText := processTextWithGemini pf t mode in
        respond 200 [("text", Str processedText)]
  | _ => respond 400 [("error", Str "Request must include non-empty 'text'")]
  end.

(** The [catch] block. *)
Definition handler_catch (error : Error) : Run Locals unit :=
  let* _ := emit (ConsoleError "/api/summarize error") in
  respond 500 [("error", Str (message_or error "Unexpected error"))].

Definition handler (pf : Platform.t) (req : JsonRequest) : Run Locals unit :=
  if negb (String.eqb (json_method req) "POST") then
    let* _ := setHeader "Allow" "POST" in
    respond 405 [("error", Str "Method Not Allowed")]
  else
    try_catch (handler_try pf req) handler_catch.

(** One request served: the world the handler leaves behind. *)
Definition serve (pf : Platform.t) (req : JsonRequest) (tmp : gset string)
  : World Locals :=
  snd (handler pf req (mkWorld tt tmp [])).

(** *** Loading the module

    The module exports [handler] as default. *)
Record Exports : Type := mkExports {
  export_default : JsonRequest -> Run Locals unit
}.

(** The top level of the module, evaluated once when the server loads the
    route: line 3 builds the set [ALLOWED_MODES], everything else declares
    a function.  No function of the module is called and [process.env] is
    not read: [getGeminiApiKey] is called from [processTextWithGemini]
    only.  The import of line 1 is the library's own code. *)
Definition load (pf : Platform.t) : Run unit Exports :=
  ret (mkExports (handler pf)).

End Summarize.

(* ===================================================================== *)
(** ** src/app/page.tsx                                                   *)
(* ===================================================================== *)

Module Page.
Import Js.

(** The browser [File] the user picked. *)
Record SelectedFile : Type := mkSelectedFile { name : string; bytes : Z }.

(** The component's [useState] cells ([previewUrl], which only the preview
    effect writes, is left out). *)
Record State : Type := mkState {
  selectedFile : option SelectedFile;
  extractedText : string;
  isLoading : bool;
  error : string;
  processedText : string;
  isProcessingText : bool;
  processingMode : option string;
  language : string
}.

Definition setExtractedText (v : string) (st : State) : State :=
  mkState (selectedFile st) v (isLoading st) (error st) (processedText st)
          (isProcessingText st) (processingMode st) (language st).
Definition setIsLoading (v : bool) (st : State) : State :=
  mkState (selectedFile st) (extractedText st) v (error st) (processedText st)
          (isProcessingText st) (processingMode st) (language st).
Definition setError (v : string) (st : State) : State :=
  mkState (selectedFile st) (extractedText st) (isLoading st) v (processedText st)
          (isProcessingText st) (processingMode st) (language st).
Definition setProcessedText (v : string) (st : State) : State :=
  mkState (selectedFile st) (extractedText st) (isLoading st) (error st) v
          (isProcessingText st) (processingMode st) (language st).
Definition setIsProcessingText (v : bool) (st : State) : State :=
  mkState (selectedFile st) (extractedText st) (isLoading st) (error st)
          (processedText st) v (processingMode st) (language st).
Definition setProcessingMode (v : option string) (st : State) : State :=
  mkState (selectedFile st) (extractedText st) (isLoading st) (error st)
          (processedText st) (isProcessingText st) v (language st).

(** The JSON body of a response, at the type the code casts it to:
    [{ text?: string }] and [{ error?: string }]. *)
Record Payload : Type := mkPayload {
  payload_text : option string;
  payload_error : option string
}.

(** What [await fetch(...)] followed by [response.json()] can do: [fetch]
    rejects, or a response arrives with its [ok] flag and a body that
    parses or not. *)
Inductive FetchOutcome : Type :=
| FetchRejects (e : Error)
| FetchResponse (ok : bool) (json : Completion Payload).

(** [a || fallback] on an optional string. *)
Definition or_else (a : option string) (fallback : string) : string :=
  match a with
  | Some s => if String.eqb s "" then fallback else s
  | None => fallback
  end.

(** [a ?? fallback] on an optional string. *)
Definition coalesce (a : option string) (fallback : string) : string :=
  match a with
  | Some s => s
  | None => fallback
  end.

(** [response.json().catch(() => ({}))]. *)
Definition json_or_empty (json : Completion Payload) : Payload :=
  match json with
  | Normal p => p
  | Thrown _ => mkPayload None None
  end.

(** [handleExtract]: the state after the callback has run to its end, given
    what the request to [/api/extract] did.  An exception thrown in the
    [try] block carries the state reached so far into the [catch] block. *)
Definition handleExtract (fetch : FetchOutcome) (st : State) : State :=
  match selectedFile st with
  | None => setError "Please select an image before extracting." st
  | Some _ =>
      let st1 := setError "" (setIsLoading true st) in
      let tried : Completion State :=
        match fetch with
        | FetchRejects e => Thrown e
        | FetchResponse false json =>
            Thrown (new_Error (or_else (payload_error (json_or_empty json))
                                       "Failed to extract text."))
        | FetchResponse true (Thrown e) => Thrown e
        | FetchResponse true (Normal data) =>
            Normal (setProcessedText ""
                     (setExtractedText (coalesce (payload_text data) "") st1))
        end in
      let st2 :=
        match tried with
        | Normal st' => st'
        | Thrown err =>
            setError (message_or err "Unexpected error during extraction.") st1
        end in
      setIsLoading false st2
  end.

(** [handleProcessText(mode)], in the same style. *)
Definition handleProcessText (mode : string) (fetch : FetchOutcome)
  (st : State) : State :=
  if String.eqb (trim (extractedText st)) "" then
    setError "Extract text first or enter content to process." st
  else
    let st1 := setError "" (setProcessingMode (Some mode)
                             (setIsProcessingText true st)) in
    let tried : Completion State :=
      match fetch with
      | FetchRejects e => Thrown e
      | FetchResponse false json =>
          Thrown (new_Error (or_else (payload_error (json_or_empty json))
                                     "Failed to process text."))
      | FetchResponse true (Thrown e) => Thrown e
      | FetchResponse true (Normal data) =>
          Normal (setProcessedText (coalesce (payload_text data) "") st1)
      end in
    let st2 :=
      match tried with
      | Normal st' => st'
      | Thrown err =>
          setError (message_or err "Unexpected error while processing text.") st1
      end in
    setProcessingMode None (setIsProcessingText false st2).

(** *** Document export

    Lengths are in points.  The code computes them in double precision;
    here they are exact rationals.  Every sum the overflow test compares is
    a multiple of 0.2 and the A4 limit is 745.89, so the two differ by at
    least 0.09 and rounding does not change the outcome of a test. *)

(** [text.split(/\n{2,}/)]: a maximal run of two or more line feeds is one
    separator; a single line feed stays in the piece.  [pending] tells what
    was read since the last kept character: nothing, one line feed, or a
    separator. *)
Inductive Pending : Type := NoLineFeed | OneLineFeed | Separator.

Definition line_feed : ascii := ascii_of_nat 10.

Definition is_line_feed (c : ascii) : bool := Ascii.eqb c line_feed.

(** [piece] is the current piece, last character first. *)
Fixpoint split_scan (s : string) (pending : Pending) (piece : list ascii)
  : list string :=
  match s with
  | EmptyString =>
      match pending with
      | NoLineFeed => [string_of_list_ascii (rev piece)]
      | OneLineFeed => [string_of_list_ascii (rev (line_feed :: piece))]
      | Separator => [EmptyString]
      end
  | String c rest =>
      if is_line_feed c then
        match pending with
        | NoLineFeed => split_scan rest OneLineFeed piece
        | OneLineFeed =>
            string_of_list_ascii (rev piece) :: split_scan rest Separator []
        | Separator => split_scan rest Separator []
        end
      else
        match pending with
        | NoLineFeed => split_scan rest NoLineFeed (c :: piece)
        | OneLineFeed => split_scan rest NoLineFeed (c :: line_feed :: piece)
        | Separator => split_scan rest NoLineFeed [c]
        end
  end.

Definition split_blank_lines (s : string) : list string :=
  split_scan s NoLineFeed [].

(** [.filter(Boolean)] on strings. *)
Definition nonempty (s : string) : bool := negb (String.eqb s "").

(** [extractedText.split(/\n{2,}/).map((p) => p.trim()).filter(Boolean)]. *)
Definition paragraphs_of (text : string) : list string :=
  filter (fun p => nonempty p) (map trim (split_blank_lines text)).

(** What the code uses of jsPDF: the page size of the format it asks for
    and the line breaking of [splitTextToSize]. *)
Record JsPdf : Type := mkJsPdf {
  pageWidth : Q;
  pageHeight : Q;
  splitTextToSize : string -> Q -> list string
}.

(** One [doc.text(...)] call: the page it lands on, its position and its
    lines. *)
Record Drawn : Type := mkDrawn {
  on_page : nat;
  at_x : Q;
  at_y : Q;
  lines : list string
}.

(** The document under construction: jsPDF starts with one page, and
    [addPage] appends one and makes it current. *)
Record Doc : Type := mkDoc {
  pages : nat;
  drawn : list Drawn;
  saved_as : option string
}.

Definition new_doc : Doc := mkDoc 1 [] None.

Definition addPage (doc : Doc) : Doc :=
  mkDoc (S (pages doc)) (drawn doc) (saved_as doc).

Definition text_at (ls : list string) (x y : Q) (doc : Doc) : Doc :=
  mkDoc (pages doc) (drawn doc ++ [mkDrawn (pages doc) x y ls])%list (saved_as doc).

Definition save (filename : string) (doc : Doc) : Doc :=
  mkDoc (pages doc) (drawn doc) (Some filename).

Definition margin_left : Q := 64.
Definition margin_right : Q := 64.
Definition margin_top : Q := 96.
Definition margin_bottom : Q := 96.
Definition paragraphSpacing : Q := 20.
Definition lineHeightFactor : Q := 16 # 10.

Definition contentWidth (pdf : JsPdf) : Q :=
  (pageWidth pdf - margin_left - margin_right)%Q.

(** [paragraphLines.length * 12 * lineHeightFactor]. *)
Definition requiredHeight (pdf : JsPdf) (paragraph : string) : Q :=
  (inject_Z (Z.of_nat (length (splitTextToSize pdf paragraph (contentWidth pdf))))
   * 12 * lineHeightFactor)%Q.

(** [cursorY + requiredHeight > pageHeight - margins.bottom]. *)
Definition overflows (pdf : JsPdf) (cursorY : Q) (paragraph : string) : bool :=
  negb (Qle_bool (cursorY + requiredHeight pdf paragraph)
                 (pageHeight pdf - margin_bottom)).

(** One turn of the [forEach] callback. *)
Definition place (pdf : JsPdf) (count : nat) (paragraph : string) (index : nat)
  (cursor : Q * Doc) : Q * Doc :=
  let (cursorY, doc) := cursor in
  let paragraphLines := splitTextToSize pdf paragraph (contentWidth pdf) in
  let (cursorY1, doc1) :=
    if overflows pdf cursorY paragraph then (margin_top, addPage doc)
    else (cursorY, doc) in
  let doc2 := text_at paragraphLines margin_left cursorY1 doc1 in
  let spacing := if (index <? count - 1)%nat then paragraphSpacing else 0%Q in
  ((cursorY1 + (requiredHeight pdf paragraph + spacing))%Q, doc2).

(** [paragraphs.forEach((paragraph, index) => ...)], from [index] on. *)
Fixpoint place_all (pdf : JsPdf) (count : nat) (paragraphs : list string)
  (index : nat) (cursor : Q * Doc) : Q * Doc :=
  match paragraphs with
  | [] => cursor
  | paragraph :: rest =>
      place_all pdf count rest (S index) (place pdf count paragraph index cursor)
  end.

(** [handleDownloadPdf]: nothing happens while there is no text; otherwise
    the document that is saved.  [formattedDate] is the locale's rendering
    of the current time. *)
Definition handleDownloadPdf (pdf : JsPdf) (formattedDate : string)
  (st : State) : option Doc :=
  if String.eqb (extractedText st) "" then None
  else
    let centre := (pageWidth pdf / 2)%Q in
    let doc0 :=
      text_at ["Generated on " ++ formattedDate] centre (margin_top - 4)%Q
        (text_at ["Extracted Handwritten Text"] centre (margin_top - 28)%Q
           new_doc) in
    let paragraphs := paragraphs_of (extractedText st) in
    let (_, doc1) :=
      place_all pdf (length paragraphs) paragraphs 0 (margin_top, doc0) in
    let doc2 :=
      text_at ["Generated by AI Handwritten Reader"] centre
              (pageHeight pdf - 40)%Q doc1 in
    Some (save "extracted-text.pdf" doc2).

(** The page count of the exported document. *)
Definition exported_pages (pdf : JsPdf) (formattedDate : string)
  (text : string) : option nat :=
  option_map pages
    (handleDownloadPdf pdf formattedDate
       (mkState None text false "" "" false None "auto")).

(** jsPDF's [a4] format in points. *)
Definition a4_width : Q := 59528 # 100.
Definition a4_height : Q := 84189 # 100.

(** *** The requests the page sends *)

(** The options of the language selector, label and value. *)
Definition LANGUAGES : list (string * string) :=
  [ ("Auto Detect", "auto");
    ("English", "en");
    ("Hindi", "hi");
    ("Marathi", "mr");
    ("Spanish", "es") ].

(** The request of [handleExtract], lines 71 to 78, as the route sees it: a
    [POST] whose multipart body carries the selected file. *)
Definition extract_request (file : SelectedFile) : Platform.UploadRequest :=
  Platform.mkUploadRequest "POST" (bytes file).

(** The request of [handleProcessText], lines 108 to 114, as the route sees
    it once the framework has parsed the JSON body
    [JSON.stringify({ text: extractedText, mode })]. *)
Definition process_request (mode : string) (st : State) : Platform.JsonRequest :=
  Platform.mkJsonRequest "POST"
    (Obj [("text", Str (extractedText st)); ("mode", Str mode)]).

End Page.

(* ===================================================================== *)
(** ** Vocabulary of the properties                                       *)
(* ===================================================================== *)

Module Props.
Import Js Platform.

(** The five language codes of the lookup table. *)
Definition language_codes : list string := ["auto"; "en"; "hi"; "mr"; "es"].

(** A [fields] object that carries only a language hint. *)
Definition fields_with (hint : value) : option (list (string * value)) :=
  Some [("language", hint)].

(** The responses sent in a trace, oldest first. *)
Fixpoint responses (events : list Event) : list (Z * list (string * value)) :=
  match events with
  | [] => []
  | Respond status json :: rest => (status, json) :: responses rest
  | _ :: rest => responses rest
  end.

(** The external model was called somewhere in the trace. *)
Definition calls_model (events : list Event) : Prop :=
  exists apiKey model parts, In (GenerateContent apiKey model parts) events.

(** Neither credential variable holds a non-empty value. *)
Definition unset_or_empty (env : gmap string string) (name : string) : Prop :=
  env !! name = None \/ env !! name = Some "".

Definition no_credential (pf : Platform.t) : Prop :=
  unset_or_empty (process_env pf) "GEMINI_API_KEY" /\
  unset_or_empty (process_env pf) "NEXT_PUBLIC_GEMINI_API_KEY".

(** The value of [uploadedFile] once the [for] loop over [names] has run,
    starting from the value [u]. *)
Fixpoint scanned (names : list string)
  (files : option (list (string * FileField))) (u : option File) : option File :=
  match names with
  | [] => u
  | field :: rest =>
      match Extract.files_entry files field with
      | Some entry => Extract.normalizeFormFile (Some entry)
      | None => scanned rest files u
      end
  end.

(** The value of [uploadedFile] after lines 111 to 124, as a function of
    the parsed [files] object. *)
Definition selected (files : option (list (string * FileField))) : option File :=
  let named := scanned Extract.FORM_FILE_FIELDS files None in
  if Extract.has_filepath named then named
  else
    match files with
    | Some entries => Extract.normalizeFormFile (Extract.first_file entries)
    | None => named
    end.

(** The paths handed to [fs.unlink] in a trace, oldest first. *)
Fixpoint unlinked (events : list Event) : list string :=
  match events with
  | [] => []
  | Unlink path :: rest => path :: unlinked rest
  | _ :: rest => unlinked rest
  end.

(** What happened after the first response was sent. *)
Fixpoint after_response (events : list Event) : list Event :=
  match events with
  | [] => []
  | Respond _ _ :: rest => rest
  | _ :: rest => after_response rest
  end.

(** formidable honours [maxFileSize]: parsing an upload larger than the
    limit it was configured with fails. *)
Definition enforces_limit (pf : Platform.t) : Prop :=
  forall options req,
    maxFileSize options < upload_size req ->
    exists e, form_parse pf options req = Thrown e.

(** The body of a response the page treats as a success: the response is
    [ok] and its JSON parses. *)
Definition succeeded (fetch : Page.FetchOutcome) : option Page.Payload :=
  match fetch with
  | Page.FetchResponse true (Normal data) => Some data
  | _ => None
  end.

(** The height between the top and the bottom margin. *)
Definition content_height (pdf : Page.JsPdf) : Q :=
  (Page.pageHeight pdf - Page.margin_top - Page.margin_bottom)%Q.

(** The calls to the external model in a trace, oldest first. *)
Fixpoint model_calls (events : list Event)
  : list (string * string * list Part) :=
  match events with
  | [] => []
  | GenerateContent apiKey model parts :: rest =>
      (apiKey, model, parts) :: model_calls rest
  | _ :: rest => model_calls rest
  end.

(** The files read in a trace, oldest first. *)
Fixpoint files_read (events : list Event) : list string :=
  match events with
  | [] => []
  | ReadFile path :: rest => path :: files_read rest
  | _ :: rest => files_read rest
  end.

(** Every character of the string is white space. *)
Fixpoint blank (s : string) : bool :=
  match s with
  | EmptyString => true
  | String c rest => is_space c && blank rest
  end.

(** Two line feeds in a row somewhere in the list. *)
Fixpoint adjacent_line_feeds (l : list ascii) : bool :=
  match l with
  | [] => false
  | c :: rest =>
      (Page.is_line_feed c
       && match rest with
          | d :: _ => Page.is_line_feed d
          | [] => false
          end)
      || adjacent_line_feeds rest
  end.

(** The piece under construction in [split_scan], last character first,
    does not end in a line feed. *)
Definition settled (piece : list ascii) : Prop :=
  match piece with
  | [] => True
  | c :: _ => Page.is_line_feed c = false
  end.

(** The line feed [split_scan] has read and not yet put into a piece. *)
Definition pending_feed (pending : Page.Pending) : list ascii :=
  match pending with
  | Page.OneLineFeed => [Page.line_feed]
  | _ => []
  end.

(** [.map((p) => p.trim()).filter(Boolean)] on the pieces of a split. *)
Definition paragraphs_from (pieces : list string) : list string :=
  filter (fun p => Page.nonempty p) (map trim pieces).

(** What [split_scan] returns at the end of the text. *)
Definition last_piece (pending : Page.Pending) (piece : list ascii)
  : list string :=
  match pending with
  | Page.NoLineFeed => [string_of_list_ascii (rev piece)]
  | Page.OneLineFeed => [string_of_list_ascii (rev (Page.line_feed :: piece))]
  | Page.Separator => [EmptyString]
  end.

(** The string holds a separator of [split(/\n{2,}/)]. *)
Definition has_blank_line (s : string) : bool :=
  adjacent_line_feeds (list_ascii_of_string s).

(** A run of [n] line feeds in front of [rest]. *)
Fixpoint feeds (n : nat) (rest : string) : string :=
  match n with
  | O => rest
  | S m => String Page.line_feed (feeds m rest)
  end.

(** [index < paragraphs.length - 1 ? paragraphSpacing : 0]. *)
Definition spacing_after (count index : nat) : Q :=
  if (index <? count - 1)%nat then Page.paragraphSpacing else 0%Q.

(** The height taken by the paragraphs from [index] on when they follow
    one another without a page break: required heights and the spacing
    after each. *)
Fixpoint extent (pdf : Page.JsPdf) (count : nat) (paragraphs : list string)
  (index : nat) : Q :=
  match paragraphs with
  | [] => 0%Q
  | paragraph :: rest =>
      (Page.requiredHeight pdf paragraph + spacing_after count index
       + extent pdf count rest (S index))%Q
  end.

(** The [doc.text] call of a paragraph is in place: it draws the lines of
    the paragraph at the left margin, not above the top margin, and, when
    the paragraph fits the content height at all, not beyond the bottom
    margin. *)
Definition well_placed (pdf : Page.JsPdf) (paragraph : string)
  (d : Page.Drawn) : Prop :=
  Page.lines d = Page.splitTextToSize pdf paragraph (Page.contentWidth pdf) /\
  Page.at_x d = Page.margin_left /\
  (Page.margin_top <= Page.at_y d)%Q /\
  ((Page.requiredHeight pdf paragraph <= content_height pdf)%Q ->
   (Page.at_y d + Page.requiredHeight pdf paragraph
    <= Page.pageHeight pdf - Page.margin_bottom)%Q).

(** The document when the loop over the paragraphs starts: one page with
    the title and the date line. *)
Definition headed (pdf : Page.JsPdf) (formattedDate : string) : Page.Doc :=
  Page.text_at ["Generated on " ++ formattedDate]
    (Page.pageWidth pdf / 2)%Q (Page.margin_top - 4)%Q
    (Page.text_at ["Extracted Handwritten Text"]
       (Page.pageWidth pdf / 2)%Q (Page.margin_top - 28)%Q Page.new_doc).

(** The JSON body of an error response. *)
Definition error_body (msg : string) : list (string * value) :=
  [("error", Str msg)].

End Props.

(* ===================================================================== *)
(** ** The exchange between the page and a route                          *)
(* ===================================================================== *)

Module Wire.
Import Js Platform.

(** A field of a JSON body that holds a string. *)
Definition string_field (json : list (string * value)) (key : string)
  : option string :=
  match own_property json key with
  | Some (Str s) => Some s
  | _ => None
  end.

(** [response.json()] at the type the page casts it to. *)
Definition payload_of (json : list (string * value)) : Page.Payload :=
  Page.mkPayload (string_field json "text") (string_field json "error").

(** [response.ok]: the status is in the range 200 to 299. *)
Definition ok (status : Z) : bool := (200 <=? status) && (status <=? 299).

(** What [fetch] resolves to in the page when the route ran with the given
    trace: the first response the handler sent, or a rejection when it sent
    none. *)
Definition fetched (events : list Event) : Page.FetchOutcome :=
  match Props.responses events with
  | (status, json) :: _ => Page.FetchResponse (ok status) (Normal (payload_of json))
  | [] => Page.FetchRejects (mkError None)
  end.

End Wire.

(* ===================================================================== *)
(** ** Sample platforms and requests                                      *)
(* ===================================================================== *)

Module Scenarios.
Import Js Platform.

Definition one_file : ParsedForm :=
  {| fields := Some [("language", Arr [Str "hi"])];
     files := Some [("file", FileArray [mkFile "/tmp/upload_1" 2048])] |}.

(** Everything works: a key is configured, the upload parses to one file,
    the image is read and normalized, the model answers. *)
Definition working : Platform.t :=
  {| process_env := {[ "GEMINI_API_KEY" := "secret" ]};
     form_parse := fun _ _ => Normal one_file;
     fs_readFile := fun _ => Normal [Byte.x89; Byte.x50; Byte.x4e; Byte.x47];
     sharp_toBuffer := fun _ buffer => Normal (Byte.x00 :: buffer);
     generateContent := fun _ _ _ => Response (Normal " namaste ");
     fs_unlink := fun _ => None |}.

(** No credential is configured. *)
Definition no_key : Platform.t :=
  {| process_env := {[ "NEXT_PUBLIC_GEMINI_API_KEY" := "" ]};
     form_parse := form_parse working;
     fs_readFile := fs_readFile working;
     sharp_toBuffer := sharp_toBuffer working;
     generateContent := generateContent working;
     fs_unlink := fs_unlink working |}.

(** formidable with its size check. *)
Definition limited : Platform.t :=
  {| process_env := process_env working;
     form_parse := fun options req =>
       if maxFileSize options <? upload_size req
       then Thrown (new_Error "options.maxFileSize exceeded")
       else Normal one_file;
     fs_readFile := fs_readFile working;
     sharp_toBuffer := sharp_toBuffer working;
     generateContent := generateContent working;
     fs_unlink := fs_unlink working |}.

(** A multipart body with two file parts, [file] and [image]. *)
Definition two_files : ParsedForm :=
  {| fields := Some [("language", Arr [Str "en"])];
     files := Some [("file", FileArray [mkFile "/tmp/upload_1" 2048]);
                    ("image", FileArray [mkFile "/tmp/upload_2" 4096])] |}.

Definition two_uploads : Platform.t :=
  {| process_env := process_env working;
     form_parse := fun _ _ => Normal two_files;
     fs_readFile := fs_readFile working;
     sharp_toBuffer := sharp_toBuffer working;
     generateContent := generateContent working;
     fs_unlink := fs_unlink working |}.

(** The model call fails. *)
Definition upstream_down : Platform.t :=
  {| process_env := process_env working;
     form_parse := form_parse working;
     fs_readFile := fs_readFile working;
     sharp_toBuffer := sharp_toBuffer working;
     generateContent := fun _ _ _ => Rejects (new_Error "fetch failed");
     fs_unlink := fs_unlink working |}.

(** The temporary directory refuses the removal. *)
Definition unlink_denied : Platform.t :=
  {| process_env := process_env working;
     form_parse := form_parse working;
     fs_readFile := fs_readFile working;
     sharp_toBuffer := sharp_toBuffer working;
     generateContent := generateContent working;
     fs_unlink := fun _ => Some (new_Error "EPERM: operation not permitted, unlink") |}.

Definition post_upload : UploadRequest := mkUploadRequest "POST" 2048.

(** A multipart body with a language field and no file part. *)
Definition no_files : ParsedForm :=
  {| fields := Some [("language", Arr [Str "en"])]; files := Some [] |}.



(** sharp rejects the bytes. *)
Definition not_an_image : Platform.t :=
  {| process_env := process_env working;
     form_parse := form_parse working;
     fs_readFile := fs_readFile working;
     sharp_toBuffer := fun _ _ =>
       Thrown (new_Error "Input buffer contains unsupported image format");
     generateContent := generateContent working;
     fs_unlink := fs_unlink working |}.

(** The model answers with three spaces. *)
Definition blank_answer : Platform.t :=
  {| process_env := process_env working;
     form_parse := form_parse working;
     fs_readFile := fs_readFile working;
     sharp_toBuffer := sharp_toBuffer working;
     generateContent := fun _ _ _ => Response (Normal "   ");
     fs_unlink := fs_unlink working |}.

(** Only the fallback variable is set. *)
Definition fallback_key : Platform.t :=
  {| process_env := {[ "NEXT_PUBLIC_GEMINI_API_KEY" := "public" ]};
     form_parse := form_parse working;
     fs_readFile := fs_readFile working;
     sharp_toBuffer := sharp_toBuffer working;
     generateContent := generateContent working;
     fs_unlink := fs_unlink working |}.

(** The primary variable is set to the empty string, the fallback to a
    key. *)
Definition empty_primary : Platform.t :=
  {| process_env :=
       <[ "GEMINI_API_KEY" := "" ]> {[ "NEXT_PUBLIC_GEMINI_API_KEY" := "public" ]};
     form_parse := form_parse working;
     fs_readFile := fs_readFile working;
     sharp_toBuffer := sharp_toBuffer working;
     generateContent := generateContent working;
     fs_unlink := fs_unlink working |}.

Definition no_upload : Platform.t :=
  {| process_env := process_env working;
     form_parse := fun _ _ => Normal no_files;
     fs_readFile := fs_readFile working;
     sharp_toBuffer := sharp_toBuffer working;
     generateContent := generateContent working;
     fs_unlink := fs_unlink working |}.

(** The page after an extraction and a summary: a file is selected, a
    transcription and its summary are on screen. *)
Definition summarized : Page.State :=
  {| Page.selectedFile := Some (Page.mkSelectedFile "letter.jpg" 2048);
     Page.extractedText := "first letter";
     Page.isLoading := false;
     Page.error := "";
     Page.processedText := "summary of the first letter";
     Page.isProcessingText := false;
     Page.processingMode := None;
     Page.language := "auto" |}.

(** The line feeds in a string. *)
Fixpoint line_feeds (s : string) : nat :=
  match s with
  | EmptyString => 0
  | String c rest =>
      ((if Page.is_line_feed c then 1 else 0) + line_feeds rest)%nat
  end.

(** jsPDF on A4 paper with lines short enough that none is wrapped:
    [splitTextToSize] gives one line per line of the paragraph. *)
Definition a4_unwrapped : Page.JsPdf :=
  {| Page.pageWidth := Page.a4_width;
     Page.pageHeight := Page.a4_height;
     Page.splitTextToSize := fun paragraph _ =>
       repeat "line" (S (line_feeds paragraph)) |}.

(** [n] lines [a], each but the last ended by a line feed. *)
Fixpoint lines_of_a (n : nat) : string :=
  match n with
  | O => ""
  | S O => "a"
  | S m => String "a" (String Page.line_feed (lines_of_a m))
  end.

Definition blank_line : string :=
  String Page.line_feed (String Page.line_feed EmptyString).

(** A paragraph of [n] lines, a blank line, and a one-line paragraph. *)
Definition two_paragraphs (n : nat) : string :=
  lines_of_a n ++ blank_line ++ "b".

End Scenarios.

(* ===================================================================== *)
(** ** Prompt resolution in the extraction route                          *)
(* ===================================================================== *)

Section PromptResolution.
Import Js Platform Extract Props.

(** Closes [~ In x l] for a literal [x] and a literal list [l]. *)
Ltac not_listed :=
  let H := fresh "H" in
  cbn [In]; intros H;
  repeat (destruct H as [H | H]; [discriminate H | ]); exact H.

Lemma own_property_codes (code : string) :
  ~ In code language_codes -> own_property LANGUAGE_PROMPTS code = None.
Proof.
  intros Hnot. unfold LANGUAGE_PROMPTS. cbn [own_property].
  repeat match goal with
  | |- context [String.eqb ?k code] =>
      destruct (String.eqb_spec k code) as [Heq | _];
      [ exfalso; apply Hnot; rewrite <- Heq; simpl; tauto | ]
  end.
  reflexivity.
Qed.

(** C1, as amended.  The hint is matched through its lowercased code
    [language_of fields]: each of the five codes resolves to its own entry
    of the table, and every code that is neither one of the five nor the
    name of a member inherited from [Object.prototype] resolves to the
    [auto] entry; an absent [fields] object or an absent [language] field
    gives the code [auto]. *)
Theorem prompt_resolved_from_table (fields : option (list (string * value))) :
  (language_of fields = "auto" -> resolved_prompt fields = Str prompt_auto) /\
  (language_of fields = "en" -> resolved_prompt fields = Str prompt_en) /\
  (language_of fields = "hi" -> resolved_prompt fields = Str prompt_hi) /\
  (language_of fields = "mr" -> resolved_prompt fields = Str prompt_mr) /\
  (language_of fields = "es" -> resolved_prompt fields = Str prompt_es) /\
  (~ In (language_of fields) language_codes ->
   inherited (language_of fields) = false ->
   resolved_prompt fields = Str prompt_auto) /\
  (languageField fields = Undefined -> resolved_prompt fields = Str prompt_auto).
Proof.
  unfold resolved_prompt.
  repeat split; try (intros ->; reflexivity).
  - intros Hnot Hinh. unfold prompt_for, member.
    rewrite (own_property_codes _ Hnot), Hinh. reflexivity.
  - intros Hundef. unfold language_of, languageValue. rewrite Hundef.
    reflexivity.
Qed.

(** The theorem at work: [HI] as a plain string, a code outside the table,
    and a request without any field. *)
Lemma prompt_resolved_from_table_witness :
  resolved_prompt (fields_with (Str "HI")) = Str prompt_hi /\
  resolved_prompt (fields_with (Str "fr")) = Str prompt_auto /\
  resolved_prompt None = Str prompt_auto.
Proof.
  split; [| split].
  - destruct (prompt_resolved_from_table (fields_with (Str "HI")))
      as (_ & _ & Hhi & _).
    apply Hhi. reflexivity.
  - destruct (prompt_resolved_from_table (fields_with (Str "fr")))
      as (_ & _ & _ & _ & _ & Hother & _).
    apply Hother.
    + change (language_of (fields_with (Str "fr"))) with "fr".
      unfold language_codes. not_listed.
    + reflexivity.
  - destruct (prompt_resolved_from_table None) as (_ & _ & _ & _ & _ & _ & Habsent).
    apply Habsent. reflexivity.
Defined.

(** C1 as stated fails: the hint [EN] is none of the five codes, yet it
    resolves to the English entry and not to the [auto] entry. *)
Lemma uppercase_hint_is_not_auto :
  ~ In "EN" language_codes /\
  resolved_prompt (fields_with (Str "EN")) = Str prompt_en /\
  resolved_prompt (fields_with (Str "EN")) <> Str prompt_auto.
Proof.
  split; [| split].
  - unfold language_codes. not_listed.
  - reflexivity.
  - vm_compute. congruence.
Qed.

(** A name inherited from [Object.prototype] is found by the lookup, so the
    fallback of [??] is not taken. *)
Example inherited_name_found :
  resolved_prompt (fields_with (Str "constructor")) = Builtin "constructor".
Proof. reflexivity. Qed.

(** C9, as amended.  A string [language] field is lowercased before the
    lookup, an array field is matched by its first element, which is
    lowercased when it is a string, and every other field gives [auto]; two
    hints with the same lowercase form resolve to the same prompt, as [EN]
    and [en] do. *)
Theorem language_hint_lowercased (fields : option (list (string * value))) :
  (forall s, languageField fields = Str s -> language_of fields = toLowerCase s) /\
  (forall s rest, languageField fields = Arr (Str s :: rest) ->
                  language_of fields = toLowerCase s) /\
  ((forall s, languageField fields <> Str s) ->
   (forall s rest, languageField fields <> Arr (Str s :: rest)) ->
   language_of fields = "auto") /\
  (forall s1 s2, toLowerCase s1 = toLowerCase s2 ->
     resolved_prompt (fields_with (Str s1)) = resolved_prompt (fields_with (Str s2))) /\
  resolved_prompt (fields_with (Str "EN")) = resolved_prompt (fields_with (Str "en")).
Proof.
  repeat split.
  - intros s H. unfold language_of, languageValue. now rewrite H.
  - intros s rest H. unfold language_of, languageValue. now rewrite H.
  - intros Hs Ha. unfold language_of, languageValue.
    destruct (languageField fields) as [ | | b | n | s | items | props | name ] eqn:E;
      try reflexivity.
    + now destruct (Hs s).
    + destruct items as [ | first rest ]; [reflexivity | ].
      destruct first; try reflexivity. now destruct (Ha s rest).
  - intros s1 s2 H. unfold resolved_prompt, language_of, languageValue.
    simpl. now rewrite H.
Qed.

Lemma language_hint_lowercased_witness :
  language_of (fields_with (Str "Mr")) = "mr" /\
  language_of (fields_with (Arr [Str "ES"])) = "es" /\
  language_of (fields_with (Num 7)) = "auto".
Proof.
  split; [| split].
  - destruct (language_hint_lowercased (fields_with (Str "Mr"))) as (Hstr & _).
    apply (Hstr "Mr"). reflexivity.
  - destruct (language_hint_lowercased (fields_with (Arr [Str "ES"])))
      as (_ & Harr & _).
    apply (Harr "ES" []). reflexivity.
  - destruct (language_hint_lowercased (fields_with (Num 7)))
      as (_ & _ & Hother & _).
    apply Hother.
    + intros s H. discriminate H.
    + intros s rest H. discriminate H.
Defined.

(** C9 as stated fails: an array is not a string, yet the field [["hi"]]
    resolves to the Hindi entry and not to [auto]. *)
Lemma array_hint_is_not_auto :
  is_string (Arr [Str "hi"]) = false /\
  language_of (fields_with (Arr [Str "hi"])) = "hi" /\
  resolved_prompt (fields_with (Arr [Str "hi"])) = Str prompt_hi /\
  resolved_prompt (fields_with (Arr [Str "hi"])) <> Str prompt_auto.
Proof.
  repeat split; try reflexivity. vm_compute. congruence.
Qed.

End PromptResolution.

(* ===================================================================== *)
(** ** Method check and input validation                                  *)
(* ===================================================================== *)

Section Validation.
Import Js Platform Props.

(** C5.  A request whose method is not [POST] gets the [Allow: POST] header
    and a 405 response from either route, and nothing else happens: the
    trace holds these two events only (no parse of the body, no validation
    response, no model call) and the temporary directory is untouched. *)
Theorem non_post_rejected (pf : Platform.t) (tmp : gset string) :
  (forall req : UploadRequest,
     upload_method req <> "POST" ->
     Extract.serve pf req tmp =
       mkWorld None tmp
         [SetHeader "Allow" "POST"; Respond 405 (error_body "Method Not Allowed")]) /\
  (forall req : JsonRequest,
     json_method req <> "POST" ->
     Summarize.serve pf req tmp =
       mkWorld tt tmp
         [SetHeader "Allow" "POST"; Respond 405 (error_body "Method Not Allowed")]).
Proof.
  split; intros req Hmethod.
  - unfold Extract.serve, Extract.handler.
    destruct (String.eqb_spec (upload_method req) "POST") as [Heq | _];
      [contradiction | reflexivity].
  - unfold Summarize.serve, Summarize.handler.
    destruct (String.eqb_spec (json_method req) "POST") as [Heq | _];
      [contradiction | reflexivity].
Qed.

Lemma non_post_rejected_witness :
  responses (trace (Extract.serve Scenarios.working (mkUploadRequest "GET" 10) ∅))
    = [(405, error_body "Method Not Allowed")] /\
  responses (trace (Summarize.serve Scenarios.working (mkJsonRequest "PUT" Null) ∅))
    = [(405, error_body "Method Not Allowed")].
Proof.
  destruct (non_post_rejected Scenarios.working ∅) as [Hextract Hsummarize].
  split.
  - rewrite (Hextract (mkUploadRequest "GET" 10)); [reflexivity | discriminate].
  - rewrite (Hsummarize (mkJsonRequest "PUT" Null)); [reflexivity | discriminate].
Defined.

End Validation.

(* ===================================================================== *)
(** ** White space                                                        *)
(* ===================================================================== *)

Section WhiteSpace.
Import Js Props.

Lemma trimStart_blank s : blank s = true -> trimStart s = "".
Proof.
  induction s as [ | c rest IH ]; cbn [blank trimStart]; [reflexivity | ].
  intros H. apply andb_true_iff in H as [Hc Hrest]. rewrite Hc. auto.
Qed.

Lemma trimStart_not_blank s :
  blank s = false ->
  exists c rest, trimStart s = String c rest /\ is_space c = false.
Proof.
  induction s as [ | c rest IH ]; cbn [blank trimStart]; [discriminate | ].
  destruct (is_space c) eqn:Hc; cbn [andb]; intros H; eauto.
Qed.

Lemma trimEnd_head c rest :
  is_space c = false -> exists kept, trimEnd (String c rest) = String c kept.
Proof.
  intros Hc. cbn [trimEnd]. destruct (trimEnd rest); rewrite ?Hc; eauto.
Qed.

(** Trimming gives the empty string exactly for the strings made of white
    space only. *)
Lemma trim_empty_iff s : trim s = "" <-> blank s = true.
Proof.
  unfold trim. split.
  - intros H. destruct (blank s) eqn:Hb; [reflexivity | ].
    destruct (trimStart_not_blank s Hb) as (c & rest & Hs & Hc).
    rewrite Hs in H. destruct (trimEnd_head c rest Hc) as [kept Hk].
    congruence.
  - intros Hb. now rewrite (trimStart_blank s Hb).
Qed.

Lemma trimEnd_idempotent s : trimEnd (trimEnd s) = trimEnd s.
Proof.
  induction s as [ | c rest IH ]; [reflexivity | ].
  cbn [trimEnd]. destruct (trimEnd rest) as [ | k kept ] eqn:E.
  - destruct (is_space c) eqn:Hc; [reflexivity | ].
    cbn [trimEnd]. now rewrite Hc.
  - change (trimEnd (String c (String k kept))) with
      (match trimEnd (String k kept) with
       | EmptyString => if is_space c then EmptyString else String c EmptyString
       | other => String c other
       end).
    now rewrite IH.
Qed.

(** Trimming is idempotent. *)
Lemma trim_idempotent s : trim (trim s) = trim s.
Proof.
  unfold trim. destruct (blank s) eqn:Hb.
  - now rewrite (trimStart_blank s Hb).
  - destruct (trimStart_not_blank s Hb) as (c & rest & -> & Hc).
    destruct (trimEnd_head c rest Hc) as [kept Hk].
    rewrite Hk at 1. cbn [trimStart]. rewrite Hc, <- Hk.
    apply trimEnd_idempotent.
Qed.

End WhiteSpace.

(* ===================================================================== *)
(** ** Running the handlers                                               *)
(* ===================================================================== *)

Section Handlers.
Import Js Platform Props.
Import Extract.

Lemma scan_fields_run names files (u : Locals) (d : gset string) (t : list Event) :
  scan_fields names files (mkWorld u d t)
  = (Normal tt, mkWorld (scanned names files u) d t).
Proof.
  induction names as [ | field rest IH ]; cbn [scan_fields scanned].
  - reflexivity.
  - destruct (files_entry files field) as [entry | ]; [reflexivity | exact IH].
Qed.

Lemma select_upload_run files (d : gset string) (t : list Event) :
  select_upload files (mkWorld None d t)
  = (Normal tt, mkWorld (selected files) d t).
Proof.
  unfold select_upload, bind. rewrite scan_fields_run.
  unfold read_locals, selected. cbn [locals].
  destruct (has_filepath (scanned FORM_FILE_FIELDS files None)); [reflexivity | ].
  destruct files; reflexivity.
Qed.

(** A [POST] request: the three blocks of the handler, started on an empty
    trace. *)
Lemma serve_post pf req tmp :
  upload_method req = "POST" ->
  serve pf req tmp
  = snd (try_finally (try_catch (handler_try pf req) handler_catch)
                     (handler_finally pf) (mkWorld None tmp [])).
Proof.
  intros Hpost. unfold serve, handler. rewrite Hpost. reflexivity.
Qed.

(** The [try] block up to the choice of the file. *)
Lemma handler_try_run pf req tmp :
  handler_try pf req (mkWorld None tmp [])
  = match form_parse pf formidable_options req with
    | Normal form =>
        process_upload pf form
          (mkWorld (selected (files form))
                   (tmp ∪ list_to_set (temp_files form))
                   [FormParse formidable_options])
    | Thrown e => (Thrown e, mkWorld None tmp [FormParse formidable_options])
    end.
Proof.
  unfold handler_try, parseMultipartRequest, bind at 1, parse. cbn [trace disk locals].
  destruct (form_parse pf formidable_options req) as [form | e]; [ | reflexivity].
  unfold bind. rewrite select_upload_run. reflexivity.
Qed.


Lemma has_filepath_Some (file : File) :
  has_filepath (Some file) = true <-> filepath file <> "".
Proof.
  unfold has_filepath.
  destruct (String.eqb_spec (filepath file) ""); cbn; split; congruence.
Qed.

(** Unfolds the blocks of the handler into the library calls they make. *)
Ltac unfold_run :=
  cbv [process_upload handler_catch handler_finally readFile cleanImage
       extractTextFromImage try_finally try_catch bind ret throw emit lift
       respond setHeader read_locals write_locals unlink];
  cbn [locals disk trace snd fst app].

(** Splits a run on what each library call does. *)
Ltac split_run :=
  repeat (
    cbn [locals disk trace snd fst app];
    match goal with
    | |- context [match selected ?f with _ => _ end] =>
        destruct (selected f) eqn:?
    | |- context [if has_filepath ?u then _ else _] =>
        destruct (has_filepath u) eqn:?
    | |- context [match fs_readFile ?p ?x with _ => _ end] =>
        destruct (fs_readFile p x) eqn:?
    | |- context [match sharp_toBuffer ?p ?o ?b with _ => _ end] =>
        destruct (sharp_toBuffer p o b) eqn:?
    | |- context [if String.eqb ?a ?b then _ else _] =>
        destruct (String.eqb a b) eqn:?
    | |- context [match generateContent ?p ?k ?m ?ps with _ => _ end] =>
        destruct (generateContent p k m ps) as [ ? | | [ ? | ? ] ] eqn:?
    | |- context [match fs_unlink ?p ?x with _ => _ end] =>
        destruct (fs_unlink p x) eqn:?
    end).

(** Every leaf of a [POST] run. *)
Ltac post_run Hpost :=
  rewrite (serve_post _ _ _ Hpost);
  unfold try_finally, try_catch; rewrite handler_try_run;
  match goal with
  | |- context [form_parse ?pf ?o ?r] =>
      destruct (form_parse pf o r) as [ ? | ? ] eqn:?
  end;
  unfold_run; split_run.

(** Closes or decomposes a membership hypothesis in a literal list. *)
Ltac listed H :=
  cbn [In] in H;
  repeat (destruct H as [H | H]; [try discriminate H | ]);
  try contradiction.

Lemma serve_not_post pf req tmp :
  upload_method req <> "POST" ->
  serve pf req tmp
  = mkWorld None tmp
      [SetHeader "Allow" "POST"; Respond 405 (error_body "Method Not Allowed")].
Proof.
  intros Hmethod. unfold serve, handler.
  destruct (String.eqb_spec (upload_method req) "POST"); [contradiction | reflexivity].
Qed.

(** C10.  The upload limit handed to formidable is 25 MiB, 26214400 bytes.
    When formidable enforces it, a [POST] whose upload is larger makes the
    parse reject, and the handler answers through its [catch] block: one
    response, with status 500 and the parse error's message; no file is
    read and nothing is unlinked. *)
Theorem oversized_upload_is_server_error pf req tmp :
  enforces_limit pf ->
  upload_method req = "POST" ->
  25 * 1024 * 1024 < upload_size req ->
  maxFileSize formidable_options = 26214400 /\
  exists e,
    form_parse pf formidable_options req = Thrown e /\
    serve pf req tmp
    = mkWorld None tmp
        [FormParse formidable_options; ConsoleError "/api/extract error";
         Respond 500 (error_body (message_or e "Unexpected error"))].
Proof.
  intros Hlimit Hpost Hsize. split; [reflexivity | ].
  destruct (Hlimit formidable_options req Hsize) as [e He].
  exists e. split; [exact He | ].
  rewrite (serve_post _ _ _ Hpost).
  unfold try_finally, try_catch. rewrite handler_try_run, He.
  reflexivity.
Qed.

Lemma oversized_upload_is_server_error_witness :
  responses (trace (serve Scenarios.limited (mkUploadRequest "POST" 26214401) ∅))
  = [(500, error_body "options.maxFileSize exceeded")].
Proof.
  assert (Hlimit : enforces_limit Scenarios.limited).
  { intros options req Hsize. cbn.
    destruct (Z.ltb_spec (maxFileSize options) (upload_size req)); [eauto | lia]. }
  destruct (oversized_upload_is_server_error Scenarios.limited
              (mkUploadRequest "POST" 26214401) ∅ Hlimit eq_refl eq_refl)
    as (_ & e & He & Hserve).
  rewrite Hserve. cbn in He. injection He as <-. reflexivity.
Defined.


(** C2, as amended.  The file the handler chose as [uploadedFile] is handed
    to [fs.unlink] exactly once, after the response was sent, whether that
    response is the success (200) or a failure caught at the top level
    (500); when the unlink succeeds the file is gone from the temporary
    directory at return, and when it fails the failure is logged and the
    response stands.  When no file was chosen (parse failure, or the 400 for
    a missing file) nothing is unlinked. *)
Theorem chosen_upload_unlinked pf req tmp :
  (forall file,
     locals (serve pf req tmp) = Some file ->
     filepath file <> "" ->
     unlinked (trace (serve pf req tmp)) = [filepath file] /\
     (exists status json,
        responses (trace (serve pf req tmp)) = [(status, json)] /\
        (status = 200 \/ status = 500)) /\
     (fs_unlink pf (filepath file) = None ->
      after_response (trace (serve pf req tmp)) = [Unlink (filepath file)] /\
      filepath file ∉ disk (serve pf req tmp)) /\
     (forall e, fs_unlink pf (filepath file) = Some e ->
      after_response (trace (serve pf req tmp))
      = [Unlink (filepath file); ConsoleWarn "Failed to remove temp file"])) /\
  (has_filepath (locals (serve pf req tmp)) = false ->
   unlinked (trace (serve pf req tmp)) = []).
Proof.
  destruct (String.eqb_spec (upload_method req) "POST") as [Hpost | Hmethod].
  - split.
    + intros file. post_run Hpost; intros Hfile Hpath;
        cbn [locals snd] in Hfile; try discriminate Hfile;
        injection Hfile as Hfile; subst file;
        try (pose proof (proj2 (has_filepath_Some _) Hpath); congruence);
        (split; [reflexivity | ]);
        (split; [do 2 eexists; split; [reflexivity | tauto] | ]);
        (split; [intros Hok | intros e' Hfail]);
        try congruence; try reflexivity;
        (split; [reflexivity | ]);
        cbn [disk snd];
        apply not_elem_of_difference; right; apply elem_of_singleton; reflexivity.
    + post_run Hpost; intros Hnone; cbn [locals snd] in Hnone;
        try congruence; reflexivity.
  - rewrite (serve_not_post _ _ _ Hmethod). split.
    + intros file [=].
    + reflexivity.
Qed.

(** On an upstream failure the chosen file is removed all the same. *)
Lemma chosen_upload_unlinked_witness :
  responses (trace (serve Scenarios.upstream_down Scenarios.post_upload ∅))
    = [(500, error_body "fetch failed")] /\
  unlinked (trace (serve Scenarios.upstream_down Scenarios.post_upload ∅))
    = ["/tmp/upload_1"] /\
  "/tmp/upload_1" ∉ disk (serve Scenarios.upstream_down Scenarios.post_upload ∅).
Proof.
  destruct (chosen_upload_unlinked Scenarios.upstream_down Scenarios.post_upload ∅)
    as [Hchosen _].
  destruct (Hchosen (mkFile "/tmp/upload_1" 2048) eq_refl ltac:(discriminate))
    as (Hunlinked & _ & Hgone & _).
  split; [reflexivity | ]. split; [exact Hunlinked | ].
  apply Hgone. reflexivity.
Defined.

(** C2 as stated fails.  When [fs.unlink] rejects, the handler logs a
    warning and returns with the uploaded file still in the temporary
    directory; and of two uploaded files only the chosen one is unlinked. *)
Lemma upload_left_behind :
  (In "/tmp/upload_1" (temp_files Scenarios.one_file) /\
   responses (trace (serve Scenarios.unlink_denied Scenarios.post_upload ∅))
     = [(200, [("text", Str "namaste")])] /\
   after_response (trace (serve Scenarios.unlink_denied Scenarios.post_upload ∅))
     = [Unlink "/tmp/upload_1"; ConsoleWarn "Failed to remove temp file"] /\
   "/tmp/upload_1" ∈ disk (serve Scenarios.unlink_denied Scenarios.post_upload ∅)) /\
  (In "/tmp/upload_2" (temp_files Scenarios.two_files) /\
   responses (trace (serve Scenarios.two_uploads Scenarios.post_upload ∅))
     = [(200, [("text", Str "namaste")])] /\
   unlinked (trace (serve Scenarios.two_uploads Scenarios.post_upload ∅))
     = ["/tmp/upload_1"] /\
   "/tmp/upload_2" ∈ disk (serve Scenarios.two_uploads Scenarios.post_upload ∅)).
Proof.
  split.
  - split; [cbn; tauto | ].
    split; [reflexivity | ].
    split; [reflexivity | ].
    apply (bool_decide_unpack _). vm_compute. exact I.
  - split; [cbn; tauto | ].
    split; [reflexivity | ].
    split; [reflexivity | ].
    apply (bool_decide_unpack _). vm_compute. exact I.
Qed.

(** C4.  Whenever the extraction route calls the model, the image it
    forwards is the output of the one pipeline [grayscale], [normalize],
    [png] run on the bytes read from the chosen file, base64-encoded and
    labelled [image/png]; the pipeline ran right before the call, and no
    run of the handler asks sharp for any other chain of operations. *)
Theorem image_normalized_before_forwarding pf req tmp :
  (forall apiKey model parts,
     In (GenerateContent apiKey model parts) (trace (serve pf req tmp)) ->
     exists form file original cleaned rest,
       form_parse pf formidable_options req = Normal form /\
       locals (serve pf req tmp) = Some file /\
       fs_readFile pf (filepath file) = Normal original /\
       sharp_toBuffer pf [grayscale; normalize; png] original = Normal cleaned /\
       parts = [TextPart (resolved_prompt (fields form));
                InlineData (base64 cleaned) "image/png"] /\
       trace (serve pf req tmp)
       = FormParse formidable_options :: ReadFile (filepath file)
         :: SharpToBuffer [grayscale; normalize; png]
         :: GenerateContent apiKey model parts :: rest) /\
  (forall ops,
     In (SharpToBuffer ops) (trace (serve pf req tmp)) ->
     ops = [grayscale; normalize; png]).
Proof.
  destruct (String.eqb_spec (upload_method req) "POST") as [Hpost | Hmethod].
  - split.
    + intros apiKey model parts.
      post_run Hpost; intros Hin; listed Hin;
        injection Hin as <- <- <-;
        do 5 eexists; repeat split; eassumption || reflexivity.
    + intros ops. post_run Hpost; intros Hin; listed Hin;
        injection Hin as <-; reflexivity.
  - rewrite (serve_not_post _ _ _ Hmethod). split.
    + intros apiKey model parts Hin. listed Hin.
    + intros ops Hin. listed Hin.
Qed.

Lemma image_normalized_before_forwarding_witness :
  exists cleaned,
    sharp_toBuffer Scenarios.working [grayscale; normalize; png]
      [Byte.x89; Byte.x50; Byte.x4e; Byte.x47] = Normal cleaned /\
    In (GenerateContent "secret" model_name
          [TextPart (Str prompt_hi); InlineData (base64 cleaned) "image/png"])
       (trace (serve Scenarios.working Scenarios.post_upload ∅)).
Proof.
  destruct (image_normalized_before_forwarding
              Scenarios.working Scenarios.post_upload ∅) as [Hcall _].
  destruct (Hcall "secret" model_name
              [TextPart (Str prompt_hi); InlineData "AIlQTkc=" "image/png"])
    as (form & file & original & cleaned & rest & Hform & Hfile & Hread & Hsharp
        & Hparts & Htrace).
  { vm_compute. do 3 right. left. reflexivity. }
  vm_compute in Hfile. injection Hfile as <-.
  vm_compute in Hread. injection Hread as <-.
  exists cleaned. split; [exact Hsharp | ].
  vm_compute in Hsharp. injection Hsharp as <-.
  vm_compute. do 3 right. left. reflexivity.
Defined.


(** *** The transform route *)

Lemma has_ALLOWED_MODES (mode : value) :
  Summarize.has Summarize.ALLOWED_MODES mode = true <->
  mode = Str "summarize" \/ mode = Str "rewrite".
Proof.
  unfold Summarize.has, Summarize.ALLOWED_MODES.
  destruct mode as [ | | b | n | s | items | props | name ];
    try (split; [discriminate | intros [H | H]; discriminate H]).
  rewrite bool_decide_eq_true, elem_of_union, !elem_of_singleton.
  split; intros [H | H]; (left + right); congruence.
Qed.

Ltac unfold_transform :=
  cbv [Summarize.handler_try Summarize.handler_catch
       Summarize.processTextWithGemini try_catch bind ret throw emit lift
       respond setHeader];
  cbn [locals disk trace snd fst app].

Ltac split_transform :=
  repeat (
    cbn [locals disk trace snd fst app negb];
    match goal with
    | |- context [match Summarize.request_text ?r with _ => _ end] =>
        destruct (Summarize.request_text r) eqn:?
    | |- context [negb (Summarize.has ?s ?m)] =>
        destruct (Summarize.has s m) eqn:?
    | |- context [if String.eqb ?a ?b then _ else _] =>
        destruct (String.eqb_spec a b)
    | |- context [match generateContent ?p ?k ?m ?ps with _ => _ end] =>
        destruct (generateContent p k m ps) as [ ? | | [ ? | ? ] ] eqn:?
    end).

Lemma transform_post pf req tmp :
  json_method req = "POST" ->
  Summarize.serve pf req tmp
  = snd (try_catch (Summarize.handler_try pf req) Summarize.handler_catch
           (mkWorld tt tmp [])).
Proof.
  intros Hpost. unfold Summarize.serve, Summarize.handler. rewrite Hpost.
  reflexivity.
Qed.

Lemma transform_not_post pf req tmp :
  json_method req <> "POST" ->
  Summarize.serve pf req tmp
  = mkWorld tt tmp
      [SetHeader "Allow" "POST"; Respond 405 (error_body "Method Not Allowed")].
Proof.
  intros Hmethod. unfold Summarize.serve, Summarize.handler.
  destruct (String.eqb_spec (json_method req) "POST"); [contradiction | reflexivity].
Qed.

(** C3.  A [POST] to the transform route whose [mode] is neither the string
    [summarize] nor the string [rewrite], or whose [text] is missing, not a
    string, empty or blank, is answered with a single 400 response and
    nothing else: the model is not called. *)
Theorem invalid_transform_request_rejected pf req tmp :
  json_method req = "POST" ->
  (Summarize.request_mode req <> Str "summarize" /\
   Summarize.request_mode req <> Str "rewrite") \/
  (forall t, Summarize.request_text req = Str t -> trim t = "") ->
  (exists msg,
     Summarize.serve pf req tmp = mkWorld tt tmp [Respond 400 (error_body msg)]) /\
  ~ calls_model (trace (Summarize.serve pf req tmp)).
Proof.
  intros Hpost Hbad.
  assert (Hserve : exists msg,
    Summarize.serve pf req tmp = mkWorld tt tmp [Respond 400 (error_body msg)]).
  { rewrite (transform_post _ _ _ Hpost). unfold_transform. split_transform;
      try (eexists; reflexivity).
    all: exfalso; destruct Hbad as [[Hs Hr] | Hblank].
    all: try (match goal with
              | H : Summarize.has _ _ = true |- _ =>
                  apply has_ALLOWED_MODES in H; destruct H; contradiction
              end).
    all: match goal with
         | Hne : trim ?s <> "" |- _ => exact (Hne (Hblank s eq_refl))
         end. }
  split; [exact Hserve | ].
  destruct Hserve as [msg ->]. intros (k & m & p & Hin). listed Hin.
Qed.

Lemma invalid_transform_request_rejected_witness :
  responses (trace (Summarize.serve Scenarios.working
               (mkJsonRequest "POST"
                  (Obj [("text", Str "dear diary"); ("mode", Str "translate")])) ∅))
    = [(400, error_body "Mode must be either 'summarize' or 'rewrite'")] /\
  responses (trace (Summarize.serve Scenarios.working
               (mkJsonRequest "POST" (Obj [("mode", Str "rewrite")])) ∅))
    = [(400, error_body "Request must include non-empty 'text'")].
Proof.
  split.
  - destruct (invalid_transform_request_rejected Scenarios.working
                (mkJsonRequest "POST"
                   (Obj [("text", Str "dear diary"); ("mode", Str "translate")])) ∅
                eq_refl) as [[msg Hserve] _].
    + left. split; discriminate.
    + rewrite Hserve. vm_compute in Hserve. injection Hserve as <-. reflexivity.
  - destruct (invalid_transform_request_rejected Scenarios.working
                (mkJsonRequest "POST" (Obj [("mode", Str "rewrite")])) ∅
                eq_refl) as [[msg Hserve] _].
    + right. intros t Ht. discriminate Ht.
    + rewrite Hserve. vm_compute in Hserve. injection Hserve as <-. reflexivity.
Defined.


(** *** The credential *)

Lemma no_credential_no_key pf :
  no_credential pf ->
  getGeminiApiKey pf = "" /\ Summarize.getGeminiApiKey pf = "".
Proof.
  intros [[Hg | Hg] [Hn | Hn]];
    unfold getGeminiApiKey, Summarize.getGeminiApiKey;
    rewrite Hg; try rewrite Hn; split; reflexivity.
Qed.

(** C8, as amended.  While neither credential variable holds a non-empty
    value, no request to either route reaches the model, and every request
    that passes the checks made before the credential is read (method and
    input validation and, in the extraction route, reading and normalizing
    the chosen file) is answered with a single 500 response whose message
    is [Missing GEMINI_API_KEY environment variable].  Nothing fails at
    startup: loading either module completes normally, does nothing to the
    world, and exports the handler the other clauses are about. *)
Theorem missing_credential_fails_request pf tmp :
  no_credential pf ->
  (forall req, ~ calls_model (trace (serve pf req tmp))) /\
  (forall req, ~ calls_model (trace (Summarize.serve pf req tmp))) /\
  (forall req t,
     json_method req = "POST" ->
     Summarize.request_text req = Str t ->
     trim t <> "" ->
     Summarize.has Summarize.ALLOWED_MODES (Summarize.request_mode req) = true ->
     Summarize.serve pf req tmp
     = mkWorld tt tmp
         [ConsoleError "/api/summarize error";
          Respond 500 (error_body "Missing GEMINI_API_KEY environment variable")]) /\
  (forall req form file original cleaned,
     upload_method req = "POST" ->
     form_parse pf formidable_options req = Normal form ->
     selected (files form) = Some file ->
     filepath file <> "" ->
     fs_readFile pf (filepath file) = Normal original ->
     sharp_toBuffer pf [grayscale; normalize; png] original = Normal cleaned ->
     responses (trace (serve pf req tmp))
     = [(500, error_body "Missing GEMINI_API_KEY environment variable")]) /\
  (forall w, exists exports,
     Extract.load pf w = (Normal exports, w) /\
     Extract.export_default exports = Extract.handler pf) /\
  (forall w, exists exports,
     Summarize.load pf w = (Normal exports, w) /\
     Summarize.export_default exports = Summarize.handler pf).
Proof.
  intros Hcred. destruct (no_credential_no_key pf Hcred) as [Hkey Hkey'].
  split; [ | split; [ | split; [ | split; [ | split]]]];
    try (intros w; eexists; split; reflexivity).
  - intros req.
    destruct (String.eqb_spec (upload_method req) "POST") as [Hpost | Hmethod].
    + post_run Hpost;
        try (match goal with
             | H : String.eqb (getGeminiApiKey pf) "" = false |- _ =>
                 rewrite Hkey in H; discriminate H
             end);
        intros (k & m & p & Hin); listed Hin.
    + rewrite (serve_not_post _ _ _ Hmethod).
      intros (k & m & p & Hin). listed Hin.
  - intros req.
    destruct (String.eqb_spec (json_method req) "POST") as [Hpost | Hmethod].
    + rewrite (transform_post _ _ _ Hpost). unfold_transform. split_transform;
        try congruence; intros (k & m & p & Hin); listed Hin.
    + rewrite (transform_not_post _ _ _ Hmethod).
      intros (k & m & p & Hin). listed Hin.
  - intros req t Hpost Htext Hnonblank Hmode.
    rewrite (transform_post _ _ _ Hpost). unfold_transform.
    rewrite Htext, Hmode, Hkey'.
    destruct (String.eqb_spec (trim t) ""); [contradiction | reflexivity].
  - intros req form file original cleaned Hpost Hform Hsel Hpath Hread Hsharp.
    pose proof (proj2 (has_filepath_Some file) Hpath) as Hfp.
    post_run Hpost; try reflexivity; try congruence;
      match goal with
      | H : String.eqb (getGeminiApiKey pf) "" = false |- _ =>
          rewrite Hkey in H; discriminate H
      end.
Qed.

Lemma missing_credential_fails_request_witness :
  responses (trace (serve Scenarios.no_key Scenarios.post_upload ∅))
    = [(500, error_body "Missing GEMINI_API_KEY environment variable")] /\
  responses (trace (Summarize.serve Scenarios.no_key
               (mkJsonRequest "POST"
                  (Obj [("text", Str "dear diary"); ("mode", Str "rewrite")])) ∅))
    = [(500, error_body "Missing GEMINI_API_KEY environment variable")].
Proof.
  assert (Hcred : no_credential Scenarios.no_key).
  { split; [left | right]; reflexivity. }
  destruct (missing_credential_fails_request Scenarios.no_key ∅ Hcred)
    as (_ & _ & Htransform & Hextract & _).
  split.
  - apply (Hextract Scenarios.post_upload Scenarios.one_file
             (mkFile "/tmp/upload_1" 2048)
             [Byte.x89; Byte.x50; Byte.x4e; Byte.x47]
             [Byte.x00; Byte.x89; Byte.x50; Byte.x4e; Byte.x47]);
      reflexivity || discriminate.
  - rewrite (Htransform
               (mkJsonRequest "POST"
                  (Obj [("text", Str "dear diary"); ("mode", Str "rewrite")]))
               "dear diary" eq_refl eq_refl);
      [reflexivity | discriminate | ].
    apply has_ALLOWED_MODES. right. reflexivity.
Defined.

(** C8 as stated fails: with no credential configured, a request that does
    not pass validation is answered with a 400, not with a 5xx. *)
Lemma invalid_request_without_credential_is_400 :
  no_credential Scenarios.no_key /\
  responses (trace (Summarize.serve Scenarios.no_key
               (mkJsonRequest "POST"
                  (Obj [("text", Str "dear diary"); ("mode", Str "translate")])) ∅))
    = [(400, error_body "Mode must be either 'summarize' or 'rewrite'")] /\
  responses (trace (serve Scenarios.no_key (mkUploadRequest "GET" 0) ∅))
    = [(405, error_body "Method Not Allowed")].
Proof.
  split; [split; [left | right]; reflexivity | ].
  split; reflexivity.
Qed.

(** *** Further properties of the extraction route *)

(** Turns the boolean string tests of a leaf into equations. *)
Ltac eqb_facts :=
  repeat match goal with
  | H : String.eqb _ _ = true |- _ => apply String.eqb_eq in H
  | H : String.eqb _ _ = false |- _ => apply String.eqb_neq in H
  end.

(** Reads the responses, model calls, reads and unlinks off a trace. *)
Ltac observe :=
  unfold error_body, new_Error;
  cbn [locals disk trace snd fst app message_or message
       responses model_calls files_read unlinked after_response].


(** X1.  A [POST] whose parsed form yields no file with a path, in
    particular one with no file part at all, is answered with the single
    response 400 [No image file uploaded]: no file is read, the model is
    not called, nothing is unlinked, and the temporary directory holds what
    the parse left there. *)
Theorem missing_file_rejected pf req tmp form :
  upload_method req = "POST" ->
  form_parse pf formidable_options req = Normal form ->
  (has_filepath (selected (files form)) = false ->
   serve pf req tmp
   = mkWorld (selected (files form)) (tmp ∪ list_to_set (temp_files form))
       [FormParse formidable_options;
        Respond 400 (error_body "No image file uploaded")]) /\
  (files form = None \/ files form = Some [] ->
   serve pf req tmp
   = mkWorld None tmp
       [FormParse formidable_options;
        Respond 400 (error_body "No image file uploaded")]).
Proof.
  intros Hpost Hform.
  assert (Hfirst : has_filepath (selected (files form)) = false ->
    serve pf req tmp
    = mkWorld (selected (files form)) (tmp ∪ list_to_set (temp_files form))
        [FormParse formidable_options;
         Respond 400 (error_body "No image file uploaded")]).
  { rewrite (serve_post _ _ _ Hpost).
    unfold try_finally, try_catch. rewrite handler_try_run, Hform.
    unfold_run. intros Hnone.
    destruct (selected (files form)) as [file | ]; split_run;
      congruence || reflexivity. }
  split; [exact Hfirst | ].
  intros Hempty.
  assert (Hsel : selected (files form) = None /\ temp_files form = []).
  { unfold temp_files. destruct Hempty as [-> | ->]; split; reflexivity. }
  destruct Hsel as [Hsel Htemp].
  rewrite Hfirst; rewrite Hsel; [ | reflexivity].
  rewrite Htemp. cbn [list_to_set]. f_equal. apply (right_id_L ∅ (∪)).
Qed.

Lemma missing_file_rejected_witness :
  responses (trace (serve Scenarios.no_upload Scenarios.post_upload ∅))
  = [(400, error_body "No image file uploaded")].
Proof.
  destruct (missing_file_rejected Scenarios.no_upload Scenarios.post_upload ∅
              Scenarios.no_files eq_refl eq_refl) as [_ Hempty].
  rewrite Hempty; [reflexivity | right; reflexivity].
Defined.



(** X3.  The success path.  With a chosen file that is read and normalized,
    a configured key and a model answer that is not empty, the handler
    reads that one file, calls the model once with the resolved prompt and
    the normalized image, answers 200 with the model's text trimmed, and
    unlinks the file. *)
Theorem extraction_succeeds pf req tmp form file original cleaned text :
  upload_method req = "POST" ->
  form_parse pf formidable_options req = Normal form ->
  selected (files form) = Some file ->
  filepath file <> "" ->
  fs_readFile pf (filepath file) = Normal original ->
  sharp_toBuffer pf [grayscale; normalize; png] original = Normal cleaned ->
  getGeminiApiKey pf <> "" ->
  generateContent pf (getGeminiApiKey pf) model_name
    [TextPart (resolved_prompt (fields form));
     InlineData (base64 cleaned) "image/png"] = Response (Normal text) ->
  text <> "" ->
  responses (trace (serve pf req tmp)) = [(200, [("text", Str (trim text))])] /\
  model_calls (trace (serve pf req tmp))
  = [(getGeminiApiKey pf, model_name,
      [TextPart (resolved_prompt (fields form));
       InlineData (base64 cleaned) "image/png"])] /\
  files_read (trace (serve pf req tmp)) = [filepath file] /\
  unlinked (trace (serve pf req tmp)) = [filepath file].
Proof.
  intros Hpost Hform Hsel Hpath Hread Hsharp Hkey Hgen Htext.
  pose proof (proj2 (has_filepath_Some file) Hpath) as Hfp.
  unfold resolved_prompt in *.
  post_run Hpost; eqb_facts; try congruence;
    observe; repeat split; congruence.
Qed.

Lemma extraction_succeeds_witness :
  responses (trace (serve Scenarios.working Scenarios.post_upload ∅))
  = [(200, [("text", Str "namaste")])].
Proof.
  apply (extraction_succeeds Scenarios.working Scenarios.post_upload ∅
           Scenarios.one_file (mkFile "/tmp/upload_1" 2048)
           [Byte.x89; Byte.x50; Byte.x4e; Byte.x47]
           [Byte.x00; Byte.x89; Byte.x50; Byte.x4e; Byte.x47] " namaste ");
    first [reflexivity | discriminate | vm_compute; discriminate].
Defined.

(** Picks the status of a leaf out of the four the handlers use. *)
Ltac pick_status :=
  cbn [In];
  first [ left; reflexivity
        | right; left; reflexivity
        | right; right; left; reflexivity
        | right; right; right; left; reflexivity ].

(** X4.  Every request to the extraction route is answered exactly once,
    with status 200, 400, 405 or 500, and no exception escapes the handler.
    The model is called at most once (there is no retry), exactly once on a
    200; on a 400 or a 405 no file was read, the model was not called and
    nothing was unlinked. *)
Theorem extract_answers_once pf req tmp :
  handler pf req (mkWorld None tmp []) = (Normal tt, serve pf req tmp) /\
  exists status json,
    responses (trace (serve pf req tmp)) = [(status, json)] /\
    In status [200; 400; 405; 500] /\
    (length (model_calls (trace (serve pf req tmp))) <= 1)%nat /\
    (status = 200 ->
     length (model_calls (trace (serve pf req tmp))) = 1%nat /\
     length (unlinked (trace (serve pf req tmp))) = 1%nat) /\
    (status = 400 \/ status = 405 ->
     model_calls (trace (serve pf req tmp)) = [] /\
     files_read (trace (serve pf req tmp)) = [] /\
     unlinked (trace (serve pf req tmp)) = []).
Proof.
  split.
  - unfold serve.
    destruct (handler pf req (mkWorld None tmp [])) as [c w] eqn:E.
    cbn [snd]. f_equal.
    assert (Hc : fst (handler pf req (mkWorld None tmp [])) = Normal tt);
      [ | rewrite E in Hc; exact Hc].
    unfold handler.
    destruct (String.eqb_spec (upload_method req) "POST") as [Hpost | Hmethod];
      cbn [negb]; [ | reflexivity].
    unfold try_finally, try_catch. rewrite handler_try_run.
    destruct (form_parse pf formidable_options req);
      unfold_run; split_run; reflexivity.
  - destruct (String.eqb_spec (upload_method req) "POST") as [Hpost | Hmethod].
    + post_run Hpost; try congruence; observe; do 2 eexists;
        (split; [reflexivity | ]); (split; [pick_status | ]);
        (split; [cbn [length]; lia | ]);
        (split;
         [ intros H; try discriminate H; split; reflexivity
         | intros [H | H]; try discriminate H; repeat split; reflexivity ]).
    + rewrite (serve_not_post _ _ _ Hmethod). observe. do 2 eexists.
      split; [reflexivity | ]. split; [pick_status | ].
      split; [cbn [length]; lia | ].
      split; [intros H; discriminate H | intros _; repeat split; reflexivity].
Qed.

(** X5.  Failures of the model call.  With a chosen file that is read and
    normalized and a configured key: a rejected call and a throwing
    [response.text()] are answered 500 with the error's message, or with
    [Unexpected error] when the thrown value has none; a result without
    [response] is answered 500 [No response received from Gemini]; an empty
    text is answered 500 [Gemini returned an empty response].  The chosen
    file is unlinked in each case. *)
Theorem upstream_failure_is_server_error pf req tmp form file original cleaned :
  upload_method req = "POST" ->
  form_parse pf formidable_options req = Normal form ->
  selected (files form) = Some file ->
  filepath file <> "" ->
  fs_readFile pf (filepath file) = Normal original ->
  sharp_toBuffer pf [grayscale; normalize; png] original = Normal cleaned ->
  getGeminiApiKey pf <> "" ->
  unlinked (trace (serve pf req tmp)) = [filepath file] /\
  (forall e,
     generateContent pf (getGeminiApiKey pf) model_name
       [TextPart (resolved_prompt (fields form));
        InlineData (base64 cleaned) "image/png"] = Rejects e ->
     responses (trace (serve pf req tmp))
     = [(500, error_body (message_or e "Unexpected error"))]) /\
  (generateContent pf (getGeminiApiKey pf) model_name
     [TextPart (resolved_prompt (fields form));
      InlineData (base64 cleaned) "image/png"] = NoResponse ->
   responses (trace (serve pf req tmp))
   = [(500, error_body "No response received from Gemini")]) /\
  (forall e,
     generateContent pf (getGeminiApiKey pf) model_name
       [TextPart (resolved_prompt (fields form));
        InlineData (base64 cleaned) "image/png"] = Response (Thrown e) ->
     responses (trace (serve pf req tmp))
     = [(500, error_body (message_or e "Unexpected error"))]) /\
  (generateContent pf (getGeminiApiKey pf) model_name
     [TextPart (resolved_prompt (fields form));
      InlineData (base64 cleaned) "image/png"] = Response (Normal "") ->
   responses (trace (serve pf req tmp))
   = [(500, error_body "Gemini returned an empty response")]).
Proof.
  intros Hpost Hform Hsel Hpath Hread Hsharp Hkey.
  pose proof (proj2 (has_filepath_Some file) Hpath) as Hfp.
  unfold resolved_prompt.
  split; [ | split; [ | split; [ | split]]].
  - post_run Hpost; eqb_facts; try congruence; observe; congruence.
  - intros e'. post_run Hpost; eqb_facts; try congruence;
      intros Hgen; observe; congruence.
  - post_run Hpost; eqb_facts; try congruence;
      intros Hgen; observe; congruence.
  - intros e'. post_run Hpost; eqb_facts; try congruence;
      intros Hgen; observe; congruence.
  - post_run Hpost; eqb_facts; try congruence;
      intros Hgen; observe; congruence.
Qed.

Lemma upstream_failure_is_server_error_witness :
  responses (trace (serve Scenarios.upstream_down Scenarios.post_upload ∅))
  = [(500, error_body "fetch failed")].
Proof.
  destruct (upstream_failure_is_server_error
              Scenarios.upstream_down Scenarios.post_upload ∅
              Scenarios.one_file (mkFile "/tmp/upload_1" 2048)
              [Byte.x89; Byte.x50; Byte.x4e; Byte.x47]
              [Byte.x00; Byte.x89; Byte.x50; Byte.x4e; Byte.x47]
              eq_refl eq_refl eq_refl ltac:(discriminate) eq_refl eq_refl
              ltac:(vm_compute; discriminate))
    as (_ & Hrejects & _).
  apply (Hrejects (new_Error "fetch failed")). reflexivity.
Defined.

(** X6.  A file that cannot be read, or an image that sharp cannot
    normalize, is answered 500 with that error's message; the model is not
    called and the chosen file is unlinked all the same. *)
Theorem unreadable_image_is_server_error pf req tmp form file :
  upload_method req = "POST" ->
  form_parse pf formidable_options req = Normal form ->
  selected (files form) = Some file ->
  filepath file <> "" ->
  (forall e,
     fs_readFile pf (filepath file) = Thrown e ->
     responses (trace (serve pf req tmp))
     = [(500, error_body (message_or e "Unexpected error"))] /\
     model_calls (trace (serve pf req tmp)) = [] /\
     unlinked (trace (serve pf req tmp)) = [filepath file]) /\
  (forall original e,
     fs_readFile pf (filepath file) = Normal original ->
     sharp_toBuffer pf [grayscale; normalize; png] original = Thrown e ->
     responses (trace (serve pf req tmp))
     = [(500, error_body (message_or e "Unexpected error"))] /\
     model_calls (trace (serve pf req tmp)) = [] /\
     unlinked (trace (serve pf req tmp)) = [filepath file]).
Proof.
  intros Hpost Hform Hsel Hpath.
  pose proof (proj2 (has_filepath_Some file) Hpath) as Hfp.
  split.
  - intros e'. post_run Hpost; eqb_facts; try congruence;
      intros Hread; observe; repeat split; congruence.
  - intros original e'. post_run Hpost; eqb_facts; try congruence;
      intros Hread Hsharp; observe; repeat split; congruence.
Qed.

Lemma unreadable_image_is_server_error_witness :
  responses (trace (serve Scenarios.not_an_image Scenarios.post_upload ∅))
  = [(500, error_body "Input buffer contains unsupported image format")].
Proof.
  destruct (unreadable_image_is_server_error
              Scenarios.not_an_image Scenarios.post_upload ∅
              Scenarios.one_file (mkFile "/tmp/upload_1" 2048)
              eq_refl eq_refl eq_refl ltac:(discriminate))
    as [_ Hsharp].
  destruct (Hsharp [Byte.x89; Byte.x50; Byte.x4e; Byte.x47]
              (new_Error "Input buffer contains unsupported image format")
              eq_refl eq_refl) as [Hresponse _].
  exact Hresponse.
Defined.

(** X7.  The handler removes nothing but the file it chose.  The files in
    the temporary directory at return are among those there before the
    request and those the parse wrote; and each of these whose path is not
    the chosen file's is still there.  A request that is not a [POST] or
    does not parse leaves the directory as it was. *)
Theorem other_files_untouched pf req tmp :
  (forall p,
     p ∈ disk (serve pf req tmp) ->
     p ∈ tmp \/
     exists form, form_parse pf formidable_options req = Normal form /\
                  In p (temp_files form)) /\
  (forall p,
     p ∈ tmp ->
     (forall file, locals (serve pf req tmp) = Some file -> filepath file <> p) ->
     p ∈ disk (serve pf req tmp)) /\
  (forall form p,
     upload_method req = "POST" ->
     form_parse pf formidable_options req = Normal form ->
     In p (temp_files form) ->
     (forall file, locals (serve pf req tmp) = Some file -> filepath file <> p) ->
     p ∈ disk (serve pf req tmp)) /\
  (upload_method req <> "POST" \/
   (exists e, form_parse pf formidable_options req = Thrown e) ->
   disk (serve pf req tmp) = tmp).
Proof.
  destruct (String.eqb_spec (upload_method req) "POST") as [Hpost | Hmethod].
  - split; [ | split; [ | split]].
    + intros p. post_run Hpost; observe;
        rewrite ?elem_of_difference, ?elem_of_union, ?elem_of_list_to_set,
                ?list_elem_of_In;
        intros Hp; intuition eauto.
    + intros p. post_run Hpost; observe;
        rewrite ?elem_of_difference, ?elem_of_union, ?elem_of_singleton;
        intros Hp Hother; try tauto;
        (split; [tauto | ]); intros Heq; exact (Hother _ eq_refl (eq_sym Heq)).
    + intros form p _. post_run Hpost; observe;
        rewrite ?elem_of_difference, ?elem_of_union, ?elem_of_singleton,
                ?elem_of_list_to_set, ?list_elem_of_In;
        intros Hform Hp Hother; try discriminate Hform;
        injection Hform as <-; try tauto;
        (split; [tauto | ]); intros Heq; exact (Hother _ eq_refl (eq_sym Heq)).
    + intros [Hmethod | [e He]]; [contradiction | ].
      rewrite (serve_post _ _ _ Hpost).
      unfold try_finally, try_catch. rewrite handler_try_run, He.
      reflexivity.
  - rewrite (serve_not_post _ _ _ Hmethod). cbn [disk locals].
    split; [ | split; [ | split]]; tauto.
Qed.

(** The second upload of a two-part request is still in the directory. *)
Lemma other_files_untouched_witness :
  "/tmp/upload_2" ∈ disk (serve Scenarios.two_uploads Scenarios.post_upload ∅).
Proof.
  destruct (other_files_untouched Scenarios.two_uploads Scenarios.post_upload ∅)
    as (_ & _ & Hparsed & _).
  apply (Hparsed Scenarios.two_files); [reflexivity | reflexivity | | ].
  - cbn. tauto.
  - intros file Hfile. vm_compute in Hfile. injection Hfile as <-. discriminate.
Defined.

(** X8.  The empty-answer check is made before trimming: a model answer
    that is not empty but holds white space only is answered 200 with the
    empty text. *)
Theorem blank_answer_gives_empty_text pf req tmp form file original cleaned text :
  upload_method req = "POST" ->
  form_parse pf formidable_options req = Normal form ->
  selected (files form) = Some file ->
  filepath file <> "" ->
  fs_readFile pf (filepath file) = Normal original ->
  sharp_toBuffer pf [grayscale; normalize; png] original = Normal cleaned ->
  getGeminiApiKey pf <> "" ->
  generateContent pf (getGeminiApiKey pf) model_name
    [TextPart (resolved_prompt (fields form));
     InlineData (base64 cleaned) "image/png"] = Response (Normal text) ->
  text <> "" ->
  blank text = true ->
  responses (trace (serve pf req tmp)) = [(200, [("text", Str "")])].
Proof.
  intros Hpost Hform Hsel Hpath Hread Hsharp Hkey Hgen Htext Hblank.
  pose proof (proj2 (has_filepath_Some file) Hpath) as Hfp.
  pose proof (proj2 (trim_empty_iff text) Hblank) as Htrim.
  unfold resolved_prompt in *.
  post_run Hpost; eqb_facts; try congruence; observe;
    rewrite <- Htrim; congruence.
Qed.

Lemma blank_answer_gives_empty_text_witness :
  responses (trace (serve Scenarios.blank_answer Scenarios.post_upload ∅))
  = [(200, [("text", Str "")])].
Proof.
  apply (blank_answer_gives_empty_text Scenarios.blank_answer
           Scenarios.post_upload ∅
           Scenarios.one_file (mkFile "/tmp/upload_1" 2048)
           [Byte.x89; Byte.x50; Byte.x4e; Byte.x47]
           [Byte.x00; Byte.x89; Byte.x50; Byte.x4e; Byte.x47] "   "
           eq_refl eq_refl eq_refl ltac:(discriminate) eq_refl eq_refl
           ltac:(vm_compute; discriminate) eq_refl ltac:(discriminate) eq_refl).
Defined.

(** *** The credential and the model call *)

Lemma key_source pf k :
  getGeminiApiKey pf = k ->
  k <> "" ->
  process_env pf !! "GEMINI_API_KEY" = Some k \/
  (process_env pf !! "GEMINI_API_KEY" = None /\
   process_env pf !! "NEXT_PUBLIC_GEMINI_API_KEY" = Some k).
Proof.
  unfold getGeminiApiKey.
  destruct (process_env pf !! "GEMINI_API_KEY") as [primary | ];
    [intros -> _; now left | ].
  destruct (process_env pf !! "NEXT_PUBLIC_GEMINI_API_KEY") as [fallback | ];
    [intros -> _; now right | ].
  intros <- Hk. now destruct Hk.
Qed.

(** X9.  Every call to the model, from either route, names the model
    [gemini-2.5-flash] and carries a key that is not empty: the value of
    [GEMINI_API_KEY] when that variable is set, and the value of
    [NEXT_PUBLIC_GEMINI_API_KEY] only when it is not set. *)
Theorem model_called_with_configured_key pf tmp apiKey model parts :
  (exists req,
     In (GenerateContent apiKey model parts) (trace (serve pf req tmp))) \/
  (exists req,
     In (GenerateContent apiKey model parts) (trace (Summarize.serve pf req tmp))) ->
  apiKey <> "" /\
  model = "gemini-2.5-flash" /\
  (process_env pf !! "GEMINI_API_KEY" = Some apiKey \/
   (process_env pf !! "GEMINI_API_KEY" = None /\
    process_env pf !! "NEXT_PUBLIC_GEMINI_API_KEY" = Some apiKey)).
Proof.
  assert (Hkey : getGeminiApiKey pf = apiKey -> apiKey <> "" ->
                 model = "gemini-2.5-flash" ->
                 apiKey <> "" /\ model = "gemini-2.5-flash" /\
                 (process_env pf !! "GEMINI_API_KEY" = Some apiKey \/
                  (process_env pf !! "GEMINI_API_KEY" = None /\
                   process_env pf !! "NEXT_PUBLIC_GEMINI_API_KEY" = Some apiKey))).
  { intros Hk Hne Hm. split; [exact Hne | ]. split; [exact Hm | ].
    now apply key_source. }
  intros [[req Hin] | [req Hin]].
  - destruct (String.eqb_spec (upload_method req) "POST") as [Hpost | Hmethod].
    + revert Hin. post_run Hpost; intros Hin; listed Hin;
        injection Hin as <- <- <-; eqb_facts;
        apply Hkey; solve [reflexivity | assumption].
    + rewrite (serve_not_post _ _ _ Hmethod) in Hin. listed Hin.
  - destruct (String.eqb_spec (json_method req) "POST") as [Hpost | Hmethod].
    + revert Hin. rewrite (transform_post _ _ _ Hpost).
      unfold_transform. split_transform; intros Hin; listed Hin;
        injection Hin as <- <- <-;
        apply Hkey; solve [reflexivity | assumption].
    + rewrite (transform_not_post _ _ _ Hmethod) in Hin. listed Hin.
Qed.

Lemma model_called_with_configured_key_witness :
  process_env Scenarios.fallback_key !! "GEMINI_API_KEY" = None /\
  process_env Scenarios.fallback_key !! "NEXT_PUBLIC_GEMINI_API_KEY"
  = Some "public".
Proof.
  destruct (model_called_with_configured_key Scenarios.fallback_key ∅
              "public" model_name
              [TextPart (Str prompt_hi); InlineData "AIlQTkc=" "image/png"])
    as (_ & _ & [Hprimary | Hfallback]).
  - left. exists Scenarios.post_upload. vm_compute. do 3 right. left. reflexivity.
  - vm_compute in Hprimary. discriminate Hprimary.
  - exact Hfallback.
Defined.

(** X10.  A [GEMINI_API_KEY] that is set to the empty string hides the
    fallback variable: whatever [NEXT_PUBLIC_GEMINI_API_KEY] holds, the
    model is never called, and a valid transform request is answered 500
    [Missing GEMINI_API_KEY environment variable]. *)
Theorem empty_primary_key_hides_fallback pf tmp :
  process_env pf !! "GEMINI_API_KEY" = Some "" ->
  (forall req, model_calls (trace (serve pf req tmp)) = []) /\
  (forall req, model_calls (trace (Summarize.serve pf req tmp)) = []) /\
  (forall req t,
     json_method req = "POST" ->
     Summarize.request_text req = Str t ->
     trim t <> "" ->
     Summarize.has Summarize.ALLOWED_MODES (Summarize.request_mode req) = true ->
     responses (trace (Summarize.serve pf req tmp))
     = [(500, error_body "Missing GEMINI_API_KEY environment variable")]).
Proof.
  intros Hprimary.
  assert (Hkey : getGeminiApiKey pf = "")
    by (unfold getGeminiApiKey; now rewrite Hprimary).
  assert (Hkey' : Summarize.getGeminiApiKey pf = "")
    by (unfold Summarize.getGeminiApiKey; now rewrite Hprimary).
  split; [ | split].
  - intros req.
    destruct (String.eqb_spec (upload_method req) "POST") as [Hpost | Hmethod].
    + post_run Hpost; eqb_facts; try congruence; reflexivity.
    + rewrite (serve_not_post _ _ _ Hmethod). reflexivity.
  - intros req.
    destruct (String.eqb_spec (json_method req) "POST") as [Hpost | Hmethod].
    + rewrite (transform_post _ _ _ Hpost). unfold_transform.
      split_transform; try congruence; reflexivity.
    + rewrite (transform_not_post _ _ _ Hmethod). reflexivity.
  - intros req t Hpost Htext Hnonblank Hmode.
    rewrite (transform_post _ _ _ Hpost). unfold_transform.
    rewrite Htext, Hmode, Hkey'.
    destruct (String.eqb_spec (trim t) ""); [contradiction | reflexivity].
Qed.

Lemma empty_primary_key_hides_fallback_witness :
  process_env Scenarios.empty_primary !! "NEXT_PUBLIC_GEMINI_API_KEY"
    = Some "public" /\
  model_calls (trace (serve Scenarios.empty_primary Scenarios.post_upload ∅)) = [].
Proof.
  split; [reflexivity | ].
  destruct (empty_primary_key_hides_fallback Scenarios.empty_primary ∅ eq_refl)
    as [Hextract _].
  apply Hextract.
Defined.

(** *** Further properties of the transform route *)

(** X11.  The success path of the transform route.  For a text that is not
    blank, a mode [summarize] or [rewrite], a configured key and a model
    answer that is not empty, the model is called once with one text part:
    the instruction of the mode, the separator, and the text exactly as it
    was sent (untrimmed); the answer is 200 with the model's text
    trimmed. *)
Theorem transform_succeeds pf req tmp t out :
  json_method req = "POST" ->
  Summarize.request_text req = Str t ->
  trim t <> "" ->
  Summarize.getGeminiApiKey pf <> "" ->
  out <> "" ->
  (Summarize.request_mode req = Str "summarize" ->
   generateContent pf (Summarize.getGeminiApiKey pf) Summarize.model_name
     [TextPart (Str (Summarize.prompt_summarize ++ Summarize.separator ++ t))]
   = Response (Normal out) ->
   Summarize.serve pf req tmp
   = mkWorld tt tmp
       [GenerateContent (Summarize.getGeminiApiKey pf) Summarize.model_name
          [TextPart (Str (Summarize.prompt_summarize ++ Summarize.separator ++ t))];
        Respond 200 [("text", Str (trim out))]]) /\
  (Summarize.request_mode req = Str "rewrite" ->
   generateContent pf (Summarize.getGeminiApiKey pf) Summarize.model_name
     [TextPart (Str (Summarize.prompt_rewrite ++ Summarize.separator ++ t))]
   = Response (Normal out) ->
   Summarize.serve pf req tmp
   = mkWorld tt tmp
       [GenerateContent (Summarize.getGeminiApiKey pf) Summarize.model_name
          [TextPart (Str (Summarize.prompt_rewrite ++ Summarize.separator ++ t))];
        Respond 200 [("text", Str (trim out))]]).
Proof.
  intros Hpost Htext Hnonblank Hkey Hout.
  split; intros Hmode Hgen;
    rewrite (transform_post _ _ _ Hpost); unfold_transform;
    rewrite Htext, Hmode.
  - rewrite (proj2 (has_ALLOWED_MODES _) (or_introl eq_refl)).
    split_transform; try congruence; observe;
      injection Hgen as ->; reflexivity.
  - rewrite (proj2 (has_ALLOWED_MODES _) (or_intror eq_refl)).
    split_transform; try congruence; observe;
      injection Hgen as ->; reflexivity.
Qed.

Lemma transform_succeeds_witness :
  responses (trace (Summarize.serve Scenarios.working
               (mkJsonRequest "POST"
                  (Obj [("text", Str " dear diary "); ("mode", Str "rewrite")])) ∅))
  = [(200, [("text", Str "namaste")])].
Proof.
  destruct (transform_succeeds Scenarios.working
              (mkJsonRequest "POST"
                 (Obj [("text", Str " dear diary "); ("mode", Str "rewrite")])) ∅
              " dear diary " " namaste "
              eq_refl eq_refl ltac:(discriminate)
              ltac:(vm_compute; discriminate) ltac:(discriminate))
    as [_ Hrewrite].
  rewrite Hrewrite; reflexivity.
Defined.

(** X12.  Every request to the transform route is answered exactly once,
    with status 200, 400, 405 or 500, and no exception escapes the handler.
    The model is called at most once, exactly once on a 200 and never on a
    400 or a 405; the temporary directory is never touched. *)
Theorem transform_answers_once pf req tmp :
  Summarize.handler pf req (mkWorld tt tmp [])
  = (Normal tt, Summarize.serve pf req tmp) /\
  disk (Summarize.serve pf req tmp) = tmp /\
  exists status json,
    responses (trace (Summarize.serve pf req tmp)) = [(status, json)] /\
    In status [200; 400; 405; 500] /\
    (length (model_calls (trace (Summarize.serve pf req tmp))) <= 1)%nat /\
    (status = 200 ->
     length (model_calls (trace (Summarize.serve pf req tmp))) = 1%nat) /\
    (status = 400 \/ status = 405 ->
     model_calls (trace (Summarize.serve pf req tmp)) = []).
Proof.
  split; [ | split].
  - unfold Summarize.serve.
    destruct (Summarize.handler pf req (mkWorld tt tmp [])) as [c w] eqn:E.
    cbn [snd]. f_equal.
    assert (Hc : fst (Summarize.handler pf req (mkWorld tt tmp [])) = Normal tt);
      [ | rewrite E in Hc; exact Hc].
    unfold Summarize.handler.
    destruct (String.eqb_spec (json_method req) "POST") as [Hpost | Hmethod];
      cbn [negb]; [ | reflexivity].
    unfold_transform. split_transform; reflexivity.
  - destruct (String.eqb_spec (json_method req) "POST") as [Hpost | Hmethod].
    + rewrite (transform_post _ _ _ Hpost). unfold_transform.
      split_transform; reflexivity.
    + rewrite (transform_not_post _ _ _ Hmethod). reflexivity.
  - destruct (String.eqb_spec (json_method req) "POST") as [Hpost | Hmethod].
    + rewrite (transform_post _ _ _ Hpost). unfold_transform.
      split_transform; observe; do 2 eexists;
        (split; [reflexivity | ]); (split; [pick_status | ]);
        (split; [cbn [length]; lia | ]);
        (split;
         [ intros H; try discriminate H; reflexivity
         | intros [H | H]; try discriminate H; reflexivity ]).
    + rewrite (transform_not_post _ _ _ Hmethod). observe. do 2 eexists.
      split; [reflexivity | ]. split; [pick_status | ].
      split; [cbn [length]; lia | ].
      split; [intros H; discriminate H | intros _; reflexivity].
Qed.

(** X13.  Failures of the model call in the transform route, for a request
    that passed validation with a configured key: a rejected call and a
    throwing [response.text()] are answered 500 with the error's message,
    or [Unexpected error] when the thrown value has none; a result without
    [response] is answered 500 [No response received from Gemini]; an empty
    text is answered 500 [Gemini returned an empty response]. *)
Theorem transform_failure_is_server_error pf req tmp t :
  json_method req = "POST" ->
  Summarize.request_text req = Str t ->
  trim t <> "" ->
  Summarize.has Summarize.ALLOWED_MODES (Summarize.request_mode req) = true ->
  Summarize.getGeminiApiKey pf <> "" ->
  exists parts,
    model_calls (trace (Summarize.serve pf req tmp))
    = [(Summarize.getGeminiApiKey pf, Summarize.model_name, parts)] /\
    (forall e,
       generateContent pf (Summarize.getGeminiApiKey pf) Summarize.model_name parts
       = Rejects e ->
       responses (trace (Summarize.serve pf req tmp))
       = [(500, error_body (message_or e "Unexpected error"))]) /\
    (generateContent pf (Summarize.getGeminiApiKey pf) Summarize.model_name parts
     = NoResponse ->
     responses (trace (Summarize.serve pf req tmp))
     = [(500, error_body "No response received from Gemini")]) /\
    (forall e,
       generateContent pf (Summarize.getGeminiApiKey pf) Summarize.model_name parts
       = Response (Thrown e) ->
       responses (trace (Summarize.serve pf req tmp))
       = [(500, error_body (message_or e "Unexpected error"))]) /\
    (generateContent pf (Summarize.getGeminiApiKey pf) Summarize.model_name parts
     = Response (Normal "") ->
     responses (trace (Summarize.serve pf req tmp))
     = [(500, error_body "Gemini returned an empty response")]).
Proof.
  intros Hpost Htext Hnonblank Hmode Hkey.
  rewrite (transform_post _ _ _ Hpost). unfold_transform.
  rewrite Htext, Hmode.
  destruct (String.eqb_spec (trim t) "") as [ | _]; [contradiction | ].
  destruct (String.eqb_spec (Summarize.getGeminiApiKey pf) "") as [ | _];
    [contradiction | ].
  cbn [negb]. eexists.
  split_transform; observe;
    (split; [reflexivity | ]);
    repeat split; intros; congruence.
Qed.

Lemma transform_failure_is_server_error_witness :
  responses (trace (Summarize.serve Scenarios.upstream_down
               (mkJsonRequest "POST"
                  (Obj [("text", Str "dear diary"); ("mode", Str "summarize")])) ∅))
  = [(500, error_body "fetch failed")].
Proof.
  destruct (transform_failure_is_server_error Scenarios.upstream_down
              (mkJsonRequest "POST"
                 (Obj [("text", Str "dear diary"); ("mode", Str "summarize")])) ∅
              "dear diary" eq_refl eq_refl ltac:(discriminate)
              ltac:(apply has_ALLOWED_MODES; left; reflexivity)
              ltac:(vm_compute; discriminate))
    as (parts & _ & Hrejects & _).
  apply (Hrejects (new_Error "fetch failed")). reflexivity.
Defined.

(** X14.  The text check of the transform route.  A string text is refused
    with 400 [Request must include non-empty 'text'] exactly when trimming
    it leaves nothing: a text that is empty or holds white space only is
    refused, whatever the mode, and a text that [trim] does not empty is
    never refused for its text. *)
Theorem blank_text_rejected pf req tmp t :
  json_method req = "POST" ->
  Summarize.request_text req = Str t ->
  (blank t = true ->
   Summarize.serve pf req tmp
   = mkWorld tt tmp
       [Respond 400 (error_body "Request must include non-empty 'text'")]) /\
  (trim t = "" ->
   Summarize.serve pf req tmp
   = mkWorld tt tmp
       [Respond 400 (error_body "Request must include non-empty 'text'")]) /\
  (trim t <> "" ->
   ~ In (400, error_body "Request must include non-empty 'text'")
        (responses (trace (Summarize.serve pf req tmp)))).
Proof.
  intros Hpost Htext.
  rewrite (transform_post _ _ _ Hpost). unfold_transform. rewrite Htext.
  split; [ | split].
  - intros Hblank. rewrite (proj2 (trim_empty_iff t) Hblank). reflexivity.
  - intros ->. reflexivity.
  - intros Hkept.
    destruct (String.eqb_spec (trim t) "") as [Hempty | _]; [contradiction | ].
    split_transform; observe; intros Hin; listed Hin.
Qed.

Lemma blank_text_rejected_witness :
  responses (trace (Summarize.serve Scenarios.working
               (mkJsonRequest "POST"
                  (Obj [("text", Str "   "); ("mode", Str "summarize")])) ∅))
  = [(400, error_body "Request must include non-empty 'text'")].
Proof.
  destruct (blank_text_rejected Scenarios.working
              (mkJsonRequest "POST"
                 (Obj [("text", Str "   "); ("mode", Str "summarize")])) ∅
              "   " eq_refl eq_refl) as [Hblank _].
  rewrite (Hblank eq_refl). reflexivity.
Defined.

(** *** The page and the routes together *)

Lemma or_else_nonempty a fallback :
  fallback <> "" -> Page.or_else a fallback <> "".
Proof.
  intros Hf. unfold Page.or_else. destruct a as [m | ]; [ | exact Hf].
  destruct (String.eqb_spec m ""); assumption.
Qed.

(** The page after an extraction that the route answered with a text. *)
Lemma handleExtract_text st file events text rest :
  Page.selectedFile st = Some file ->
  responses events = (200, [("text", Str text)]) :: rest ->
  Page.extractedText (Page.handleExtract (Wire.fetched events) st) = text /\
  Page.processedText (Page.handleExtract (Wire.fetched events) st) = "" /\
  Page.error (Page.handleExtract (Wire.fetched events) st) = "".
Proof.
  intros Hfile Hresp. unfold Wire.fetched, Page.handleExtract.
  rewrite Hresp, Hfile. repeat split; reflexivity.
Qed.

(** The page after an extraction that the route answered with an error. *)
Lemma handleExtract_error st file events status msg rest :
  Page.selectedFile st = Some file ->
  responses events = (status, [("error", Str msg)]) :: rest ->
  Wire.ok status = false ->
  Page.error (Page.handleExtract (Wire.fetched events) st)
    = Page.or_else (Some msg) "Failed to extract text." /\
  Page.extractedText (Page.handleExtract (Wire.fetched events) st)
    = Page.extractedText st /\
  Page.processedText (Page.handleExtract (Wire.fetched events) st)
    = Page.processedText st.
Proof.
  intros Hfile Hresp Hok. unfold Wire.fetched, Page.handleExtract.
  rewrite Hresp, Hfile, Hok. repeat split; reflexivity.
Qed.

(** X15.  One extraction, page and route together.  When the page sends
    its request for the selected file and handles the answer, either the
    route answered 200 and the page shows exactly the text of that answer,
    no error and no transform result; or the route answered 400 or 500 and
    the page shows an error message that is not empty and keeps its
    transcription and its transform result.  The page's request is never
    answered 405. *)
Theorem extraction_round_trip pf tmp st file :
  Page.selectedFile st = Some file ->
  (exists text,
     responses (trace (serve pf (Page.extract_request file) tmp))
       = [(200, [("text", Str text)])] /\
     Page.extractedText
       (Page.handleExtract
          (Wire.fetched (trace (serve pf (Page.extract_request file) tmp))) st)
       = text /\
     Page.processedText
       (Page.handleExtract
          (Wire.fetched (trace (serve pf (Page.extract_request file) tmp))) st)
       = "" /\
     Page.error
       (Page.handleExtract
          (Wire.fetched (trace (serve pf (Page.extract_request file) tmp))) st)
       = "") \/
  (exists status msg,
     responses (trace (serve pf (Page.extract_request file) tmp))
       = [(status, error_body msg)] /\
     (status = 400 \/ status = 500) /\
     Page.error
       (Page.handleExtract
          (Wire.fetched (trace (serve pf (Page.extract_request file) tmp))) st)
       <> "" /\
     Page.extractedText
       (Page.handleExtract
          (Wire.fetched (trace (serve pf (Page.extract_request file) tmp))) st)
       = Page.extractedText st /\
     Page.processedText
       (Page.handleExtract
          (Wire.fetched (trace (serve pf (Page.extract_request file) tmp))) st)
       = Page.processedText st).
Proof.
  intros Hfile.
  assert (Hpost : upload_method (Page.extract_request file) = "POST")
    by reflexivity.
  set (req := Page.extract_request file) in *. clearbody req.
  assert (Hcases :
    (exists text,
       responses (trace (serve pf req tmp)) = [(200, [("text", Str text)])]) \/
    (exists status msg,
       responses (trace (serve pf req tmp)) = [(status, [("error", Str msg)])] /\
       (status = 400 \/ status = 500))).
  { post_run Hpost; observe;
      solve [ left; eexists; reflexivity
            | right; do 2 eexists; split; [reflexivity | tauto] ]. }
  destruct Hcases as [[text Hresp] | (status & msg & Hresp & Hstatus)].
  - left. exists text. split; [exact Hresp | ].
    now apply (handleExtract_text st file _ text []).
  - right. exists status, msg. split; [exact Hresp | ].
    split; [exact Hstatus | ].
    destruct (handleExtract_error st file _ status msg [] Hfile Hresp)
      as (Herr & Htext & Hprocessed).
    { destruct Hstatus as [-> | ->]; reflexivity. }
    rewrite Herr. split; [ | split; assumption].
    apply or_else_nonempty. discriminate.
Qed.

Lemma extraction_round_trip_witness :
  Page.extractedText
    (Page.handleExtract
       (Wire.fetched
          (trace (serve Scenarios.working
                    (Page.extract_request (Page.mkSelectedFile "letter.jpg" 2048)) ∅)))
       Scenarios.summarized)
  = "namaste".
Proof.
  destruct (extraction_round_trip Scenarios.working ∅ Scenarios.summarized
              (Page.mkSelectedFile "letter.jpg" 2048) eq_refl)
    as [(text & Hresp & Htext & _) | (status & msg & Hresp & _)].
  - rewrite Htext. vm_compute in Hresp. now injection Hresp as <-.
  - vm_compute in Hresp. discriminate Hresp.
Defined.

(** X16.  One transform, page and route together.  A transform the page
    lets through (the transcription is not blank; the mode is one of the
    two the page uses) is never refused by the route: the answer is 200 or
    500, never 400 or 405.  On a 200 the page shows exactly the text of the
    answer and no error; on a 500 it shows an error message that is not
    empty and keeps its transform result.  The transcription is unchanged
    and the processing flags are reset either way. *)
Theorem transform_round_trip pf tmp st mode :
  trim (Page.extractedText st) <> "" ->
  mode = "summarize" \/ mode = "rewrite" ->
  ((exists out,
      responses (trace (Summarize.serve pf (Page.process_request mode st) tmp))
        = [(200, [("text", Str out)])] /\
      Page.processedText
        (Page.handleProcessText mode
           (Wire.fetched
              (trace (Summarize.serve pf (Page.process_request mode st) tmp))) st)
        = out /\
      Page.error
        (Page.handleProcessText mode
           (Wire.fetched
              (trace (Summarize.serve pf (Page.process_request mode st) tmp))) st)
        = "") \/
   (exists msg,
      responses (trace (Summarize.serve pf (Page.process_request mode st) tmp))
        = [(500, error_body msg)] /\
      Page.processedText
        (Page.handleProcessText mode
           (Wire.fetched
              (trace (Summarize.serve pf (Page.process_request mode st) tmp))) st)
        = Page.processedText st /\
      Page.error
        (Page.handleProcessText mode
           (Wire.fetched
              (trace (Summarize.serve pf (Page.process_request mode st) tmp))) st)
        <> "")) /\
  Page.extractedText
    (Page.handleProcessText mode
       (Wire.fetched
          (trace (Summarize.serve pf (Page.process_request mode st) tmp))) st)
    = Page.extractedText st /\
  Page.isProcessingText
    (Page.handleProcessText mode
       (Wire.fetched
          (trace (Summarize.serve pf (Page.process_request mode st) tmp))) st)
    = false /\
  Page.processingMode
    (Page.handleProcessText mode
       (Wire.fetched
          (trace (Summarize.serve pf (Page.process_request mode st) tmp))) st)
    = None.
Proof.
  intros Hnonblank Hmode.
  assert (Hhas : Summarize.has Summarize.ALLOWED_MODES
                   (Summarize.request_mode (Page.process_request mode st)) = true).
  { apply has_ALLOWED_MODES.
    change (Summarize.request_mode (Page.process_request mode st)) with (Str mode).
    destruct Hmode as [-> | ->]; [now left | now right]. }
  assert (Htext : Summarize.request_text (Page.process_request mode st)
                  = Str (Page.extractedText st)) by reflexivity.
  assert (Hcases :
    (exists out,
       responses (trace (Summarize.serve pf (Page.process_request mode st) tmp))
       = [(200, [("text", Str out)])]) \/
    (exists msg,
       responses (trace (Summarize.serve pf (Page.process_request mode st) tmp))
       = [(500, [("error", Str msg)])])).
  { rewrite (transform_post pf (Page.process_request mode st) tmp eq_refl).
    unfold_transform. rewrite Htext, Hhas.
    destruct (String.eqb_spec (trim (Page.extractedText st)) "") as [ | _];
      [contradiction | ].
    cbn [negb]. split_transform; observe;
      solve [ left; eexists; reflexivity | right; eexists; reflexivity ]. }
  unfold Page.handleProcessText, Wire.fetched.
  destruct (String.eqb_spec (trim (Page.extractedText st)) "") as [ | _];
    [contradiction | ].
  destruct Hcases as [[out Hresp] | [msg Hresp]]; rewrite Hresp.
  - split; [left; exists out; repeat split; reflexivity | ].
    repeat split; reflexivity.
  - split; [ | repeat split; reflexivity].
    right. exists msg. split; [reflexivity | ]. split; [reflexivity | ].
    apply (or_else_nonempty (Some msg)). discriminate.
Qed.

Lemma transform_round_trip_witness :
  Page.processedText
    (Page.handleProcessText "rewrite"
       (Wire.fetched
          (trace (Summarize.serve Scenarios.working
                    (Page.process_request "rewrite" Scenarios.summarized) ∅)))
       Scenarios.summarized)
  = "namaste".
Proof.
  destruct (transform_round_trip Scenarios.working ∅ Scenarios.summarized "rewrite")
    as [[(out & Hresp & Hprocessed & _) | (msg & Hresp & _)] _].
  - discriminate.
  - right. reflexivity.
  - rewrite Hprocessed. vm_compute in Hresp. now injection Hresp as <-.
  - vm_compute in Hresp. discriminate Hresp.
Defined.

End Handlers.

(* ===================================================================== *)
(** ** The client page                                                    *)
(* ===================================================================== *)

Section ClientPage.
Import Js Props Page.

(** C6, as amended.  An extract action that succeeds (an [ok] response whose
    body parses) replaces the transcription by the returned text, or by the
    empty string when the body has none, empties the transform result and
    leaves no error on screen.  An extract action that fails leaves the
    transcription and the transform result as they were and sets the error
    text.  For a response that is not [ok] this is the [error] field of its
    body, or [Failed to extract text.] when the body has none, an empty one
    or does not parse: an error is shown.  When [fetch] or the body parser
    rejects, it is the message of the rejection, or [Unexpected error
    during extraction.] for a thrown value that is not an [Error]: an error
    is shown unless that message is the empty string.  Either way the
    loading flag is off at the end. *)
Theorem extract_outcome (st : State) (file : SelectedFile) (fetch : FetchOutcome) :
  selectedFile st = Some file ->
  (forall data, succeeded fetch = Some data ->
     extractedText (handleExtract fetch st) = coalesce (payload_text data) "" /\
     processedText (handleExtract fetch st) = "" /\
     error (handleExtract fetch st) = "") /\
  (succeeded fetch = None ->
     extractedText (handleExtract fetch st) = extractedText st /\
     processedText (handleExtract fetch st) = processedText st /\
     (forall json, fetch = FetchResponse false json ->
        error (handleExtract fetch st)
        = or_else (payload_error (json_or_empty json)) "Failed to extract text." /\
        error (handleExtract fetch st) <> "") /\
     (forall e, fetch = FetchRejects e \/ fetch = FetchResponse true (Thrown e) ->
        error (handleExtract fetch st)
        = message_or e "Unexpected error during extraction." /\
        (message e <> Some "" -> error (handleExtract fetch st) <> ""))) /\
  isLoading (handleExtract fetch st) = false.
Proof.
  intros Hfile.
  assert (Hfallback : forall a, or_else a "Failed to extract text." <> "").
  { intros [a | ]; cbn [or_else]; [ | discriminate].
    destruct (String.eqb_spec a "") as [_ | Ha]; [discriminate | exact Ha]. }
  assert (Hmessage : forall e,
    message e <> Some "" ->
    message_or e "Unexpected error during extraction." <> "").
  { intros [[m | ]]; cbn [message_or message]; [congruence | discriminate]. }
  unfold handleExtract. rewrite Hfile.
  destruct fetch as [e | [ | ] [data | e]]; cbn [succeeded];
    (split; [ | split]); try reflexivity.
  all: try (intros data' [= <-]; repeat split; reflexivity).
  all: try (intros data' Hnone; discriminate Hnone).
  all: try (intros Hsome; discriminate Hsome).
  all: intros _; (split; [reflexivity | split; [reflexivity | split]]).
  all: try (intros json [= <-]).
  all: try (intros json Hjson; discriminate Hjson).
  all: try (intros e' [[= <-] | Hother]; [ | discriminate Hother]).
  all: try (intros e' [Hother | [= <-]]; [discriminate Hother | ]).
  all: try (intros e' [Hother | Hother]; discriminate Hother).
  all: cbn [error setIsLoading setError new_Error message_or message];
    (split; [reflexivity | ]).
  all: try apply Hfallback.
  all: try apply (Hmessage _).
Qed.

Lemma extract_outcome_witness :
  processedText
    (handleExtract
       (FetchResponse true (Normal (mkPayload (Some "second letter") None)))
       Scenarios.summarized) = "" /\
  extractedText
    (handleExtract
       (FetchResponse true (Normal (mkPayload (Some "second letter") None)))
       Scenarios.summarized) = "second letter".
Proof.
  destruct (extract_outcome Scenarios.summarized
              (mkSelectedFile "letter.jpg" 2048)
              (FetchResponse true (Normal (mkPayload (Some "second letter") None)))
              eq_refl) as [Hok _].
  destruct (Hok (mkPayload (Some "second letter") None) eq_refl)
    as (Htext & Hprocessed & _).
  split; [exact Hprocessed | exact Htext].
Defined.

(** C6 as stated fails: extraction is run again, the server answers 500,
    and the summary of the previous transcription stays on screen. *)
Lemma failed_extraction_keeps_summary :
  processedText
    (handleExtract
       (FetchResponse false (Normal (mkPayload None (Some "Gemini returned an empty response"))))
       Scenarios.summarized)
  = "summary of the first letter" /\
  extractedText
    (handleExtract
       (FetchResponse false (Normal (mkPayload None (Some "Gemini returned an empty response"))))
       Scenarios.summarized)
  = "first letter" /\
  processedText
    (handleExtract
       (FetchResponse false (Normal (mkPayload None (Some "Gemini returned an empty response"))))
       Scenarios.summarized)
  <> "".
Proof.
  repeat split; try reflexivity. discriminate.
Qed.


(** *** The transform action and the language selector *)

(** X17.  The transform action of the page.  While the transcription is
    blank no request is made: whatever the network would answer, the page
    only shows [Extract text first or enter content to process.].
    Otherwise a successful answer replaces the transform result by the
    returned text (the empty string when the body has none) and clears the
    error, a failed one keeps the transform result; the transcription is
    never changed and the processing flags are reset at the end. *)
Theorem process_text_outcome (mode : string) (fetch : FetchOutcome) (st : State) :
  (trim (extractedText st) = "" ->
   handleProcessText mode fetch st
   = setError "Extract text first or enter content to process." st) /\
  (trim (extractedText st) <> "" ->
   (forall data, succeeded fetch = Some data ->
      processedText (handleProcessText mode fetch st)
        = coalesce (payload_text data) "" /\
      error (handleProcessText mode fetch st) = "") /\
   (succeeded fetch = None ->
      processedText (handleProcessText mode fetch st) = processedText st) /\
   isProcessingText (handleProcessText mode fetch st) = false /\
   processingMode (handleProcessText mode fetch st) = None) /\
  extractedText (handleProcessText mode fetch st) = extractedText st /\
  selectedFile (handleProcessText mode fetch st) = selectedFile st.
Proof.
  unfold handleProcessText.
  destruct (String.eqb_spec (trim (extractedText st)) "") as [Hblank | Hnonblank].
  - repeat split; try reflexivity; intros; contradiction.
  - split; [intros; contradiction | ].
    destruct fetch as [e | [ | ] [data | e]]; cbn;
      repeat split; intros; try discriminate; try reflexivity;
      match goal with
      | H : Some _ = Some _ |- _ => injection H as <-; reflexivity
      end.
Qed.

Lemma process_text_outcome_witness :
  processedText
    (handleProcessText "summarize"
       (FetchResponse true (Normal (mkPayload (Some "short") None)))
       Scenarios.summarized) = "short".
Proof.
  destruct (process_text_outcome "summarize"
              (FetchResponse true (Normal (mkPayload (Some "short") None)))
              Scenarios.summarized) as (_ & Hsent & _).
  destruct Hsent as (Hok & _); [discriminate | ].
  destruct (Hok (mkPayload (Some "short") None) eq_refl) as [Hprocessed _].
  exact Hprocessed.
Defined.

(** X18.  The language selector and the prompt table agree: the values the
    page offers are exactly the keys of [LANGUAGE_PROMPTS], in the same
    order, and each of them, sent as a string or as a one-element array,
    resolves to its own entry of the table. *)
Theorem offered_languages_have_prompts :
  map snd LANGUAGES = map fst Extract.LANGUAGE_PROMPTS /\
  forall label code,
    In (label, code) LANGUAGES ->
    exists prompt,
      own_property Extract.LANGUAGE_PROMPTS code = Some (Str prompt) /\
      Extract.resolved_prompt (fields_with (Str code)) = Str prompt /\
      Extract.resolved_prompt (fields_with (Arr [Str code])) = Str prompt.
Proof.
  split; [reflexivity | ].
  intros label code Hin. unfold LANGUAGES in Hin. cbn [In] in Hin.
  repeat (destruct Hin as [Hin | Hin];
          [injection Hin as <- <-; eexists; repeat split; reflexivity | ]).
  contradiction.
Qed.

End ClientPage.

(* ===================================================================== *)
(** ** Paragraphs of the exported document                                *)
(* ===================================================================== *)

Section Paragraphs.
Import Js Props Page.

Lemma is_line_feed_eq c : is_line_feed c = true <-> c = line_feed.
Proof. apply Ascii.eqb_eq. Qed.

(** Two line feeds in a row, said without recursion. *)
Lemma adjacent_line_feeds_spec l :
  adjacent_line_feeds l = true <->
  exists before after, l = (before ++ line_feed :: line_feed :: after)%list.
Proof.
  split.
  - induction l as [ | c rest IH ]; cbn [adjacent_line_feeds]; [discriminate | ].
    intros H. apply orb_true_iff in H as [H | H].
    + apply andb_true_iff in H as [Hc Hd].
      destruct rest as [ | d rest' ]; [discriminate | ].
      apply is_line_feed_eq in Hc, Hd. subst.
      exists [], rest'. reflexivity.
    + destruct (IH H) as (before & after & ->).
      exists (c :: before), after. reflexivity.
  - intros (before & after & ->).
    induction before as [ | c before IH ]; cbn [app adjacent_line_feeds].
    + unfold is_line_feed. rewrite Ascii.eqb_refl. reflexivity.
    + rewrite IH. apply orb_true_r.
Qed.

Lemma adjacent_line_feeds_rev l :
  adjacent_line_feeds l = false -> adjacent_line_feeds (rev l) = false.
Proof.
  intros H. destruct (adjacent_line_feeds (rev l)) eqn:E; [ | reflexivity].
  apply adjacent_line_feeds_spec in E as (before & after & E).
  assert (Hl : adjacent_line_feeds l = true); [ | congruence].
  apply adjacent_line_feeds_spec.
  exists (rev after), (rev before).
  rewrite <- (rev_involutive l), E, rev_app_distr. cbn [rev].
  rewrite <- !app_assoc. reflexivity.
Qed.

Lemma has_blank_line_of_list l :
  has_blank_line (string_of_list_ascii l) = adjacent_line_feeds l.
Proof.
  unfold has_blank_line. now rewrite list_ascii_of_string_of_list_ascii.
Qed.

Lemma split_scan_clean s :
  forall pending piece,
    adjacent_line_feeds piece = false ->
    settled piece ->
    (pending = Separator -> piece = []) ->
    Forall (fun q => has_blank_line q = false) (split_scan s pending piece).
Proof.
  assert (Hemit : forall piece,
    adjacent_line_feeds piece = false ->
    has_blank_line (string_of_list_ascii (rev piece)) = false).
  { intros piece H. rewrite has_blank_line_of_list.
    now apply adjacent_line_feeds_rev. }
  assert (Hpush : forall c piece,
    is_line_feed c = false -> adjacent_line_feeds piece = false ->
    adjacent_line_feeds (c :: piece) = false).
  { intros c piece Hc H. cbn [adjacent_line_feeds]. now rewrite Hc, H. }
  assert (Hfeed : forall piece,
    adjacent_line_feeds piece = false -> settled piece ->
    adjacent_line_feeds (line_feed :: piece) = false).
  { intros piece H Hs. cbn [adjacent_line_feeds]. rewrite H.
    destruct piece as [ | d rest ]; cbn in Hs |- *; [reflexivity | ].
    rewrite Hs. reflexivity. }
  induction s as [ | c rest IH ]; intros pending piece Hadj Hset Hsep;
    cbn [split_scan].
  - destruct pending; constructor; try constructor; auto.
  - destruct (is_line_feed c) eqn:Hc; destruct pending.
    + apply IH; auto. discriminate.
    + constructor; [auto | ]. apply IH; auto. exact I.
    + apply IH; auto. exact I.
    + apply IH; auto. discriminate.
    + apply IH; [ | exact Hc | discriminate].
      apply Hpush; [exact Hc | ]. now apply Hfeed.
    + apply IH; [ | exact Hc | discriminate].
      cbn [adjacent_line_feeds]. now rewrite Hc.
Qed.

Lemma has_blank_line_trimStart s :
  has_blank_line s = false -> has_blank_line (trimStart s) = false.
Proof.
  unfold has_blank_line.
  induction s as [ | c rest IH ]; cbn [trimStart]; [auto | ].
  destruct (is_space c); [ | auto].
  cbn [list_ascii_of_string adjacent_line_feeds].
  intros H. apply orb_false_iff in H as [_ H]. auto.
Qed.

Lemma trimEnd_prefix s k kept :
  trimEnd s = String k kept -> exists rest, s = String k rest.
Proof.
  destruct s as [ | c rest ]; cbn [trimEnd]; [discriminate | ].
  destruct (trimEnd rest); [destruct (is_space c) | ]; intros [= <- _]; eauto.
Qed.

Lemma has_blank_line_trimEnd s :
  has_blank_line s = false -> has_blank_line (trimEnd s) = false.
Proof.
  unfold has_blank_line.
  induction s as [ | c rest IH ]; cbn [trimEnd]; [auto | ].
  cbn [list_ascii_of_string adjacent_line_feeds].
  intros H. apply orb_false_iff in H as [Hhead Hrest].
  specialize (IH Hrest).
  destruct (trimEnd rest) as [ | k kept ] eqn:E.
  - destruct (is_space c); cbn; [reflexivity | ].
    now rewrite andb_false_r.
  - destruct (trimEnd_prefix rest k kept E) as [rest' ->].
    cbn [list_ascii_of_string adjacent_line_feeds] in *.
    now rewrite Hhead, IH.
Qed.

(** X19.  Every paragraph of the exported document is a non-empty,
    trimmed piece of the text that holds no blank line: it is not the empty
    string, trimming it again changes nothing, and it has no two line feeds
    in a row. *)
Theorem paragraphs_clean (text p : string) :
  In p (paragraphs_of text) ->
  p <> "" /\ trim p = p /\ has_blank_line p = false.
Proof.
  unfold paragraphs_of. intros Hin.
  apply list_elem_of_In, list_elem_of_filter in Hin as [Hne Hin].
  apply Is_true_true in Hne.
  apply list_elem_of_In, in_map_iff in Hin as (q & <- & Hq).
  split; [ | split].
  - unfold nonempty in Hne. apply negb_true_iff in Hne.
    now apply String.eqb_neq in Hne.
  - apply trim_idempotent.
  - unfold trim. apply has_blank_line_trimEnd, has_blank_line_trimStart.
    pose proof (split_scan_clean text NoLineFeed [] eq_refl I
                  ltac:(discriminate)) as Hall.
    rewrite Forall_forall in Hall. apply Hall, list_elem_of_In, Hq.
Qed.

Lemma paragraphs_clean_witness :
  "b" <> "" /\ trim "b" = "b" /\ has_blank_line "b" = false.
Proof.
  apply (paragraphs_clean (Scenarios.two_paragraphs 3) "b").
  vm_compute. right. left. reflexivity.
Defined.

Lemma split_scan_unbroken s :
  forall pending piece,
    pending <> Separator ->
    adjacent_line_feeds (pending_feed pending ++ list_ascii_of_string s) = false ->
    split_scan s pending piece
    = [string_of_list_ascii
         (rev piece ++ pending_feed pending ++ list_ascii_of_string s)].
Proof.
  induction s as [ | c rest IH ]; intros pending piece Hpending Hclean;
    cbn [split_scan list_ascii_of_string].
  - destruct pending; [ | | contradiction]; cbn [pending_feed rev app];
      now rewrite ?app_nil_r.
  - destruct (is_line_feed c) eqn:Hc.
    + apply is_line_feed_eq in Hc. subst c.
      destruct pending; [ | | contradiction].
      * rewrite (IH OneLineFeed piece); [reflexivity | discriminate | exact Hclean].
      * cbn in Hclean. discriminate Hclean.
    + destruct pending; [ | | contradiction].
      * rewrite (IH NoLineFeed (c :: piece)); [ | discriminate | ].
        -- cbn [rev pending_feed app]. now rewrite <- app_assoc.
        -- cbn [pending_feed app list_ascii_of_string adjacent_line_feeds] in *.
           now apply orb_false_iff in Hclean as [_ Hclean].
      * rewrite (IH NoLineFeed (c :: line_feed :: piece)); [ | discriminate | ].
        -- cbn [rev pending_feed app]. now rewrite <- !app_assoc.
        -- cbn [pending_feed app list_ascii_of_string adjacent_line_feeds] in *.
           apply orb_false_iff in Hclean as [_ Hclean].
           now apply orb_false_iff in Hclean as [_ Hclean].
Qed.

(** The pieces of a text without two line feeds in a row: the text itself,
    kept when trimming it leaves something. *)
Lemma paragraphs_of_unbroken (text : string) :
  has_blank_line text = false ->
  paragraphs_of text = if String.eqb (trim text) "" then [] else [trim text].
Proof.
  intros Hclean. unfold paragraphs_of, split_blank_lines.
  rewrite (split_scan_unbroken text NoLineFeed []);
    [ | discriminate | exact Hclean].
  cbn [rev pending_feed app map]. rewrite string_of_list_ascii_of_string.
  destruct (String.eqb_spec (trim text) "") as [Hempty | Hkept].
  - rewrite filter_cons_False; [now rewrite filter_nil | ].
    rewrite Hempty. intros H. exact H.
  - rewrite filter_cons_True; [now rewrite filter_nil | ].
    apply Is_true_true. unfold nonempty.
    now apply negb_true_iff, String.eqb_neq.
Qed.

(** X20.  A text without two line feeds in a row is not split: it gives
    one paragraph, the trimmed text, or none at all when trimming it leaves
    nothing, as it does for a text of white space only. *)
Theorem unbroken_text_is_one_paragraph (text : string) :
  has_blank_line text = false ->
  (trim text <> "" -> paragraphs_of text = [trim text]) /\
  (trim text = "" -> paragraphs_of text = []) /\
  (blank text = true -> paragraphs_of text = []).
Proof.
  intros Hclean. rewrite (paragraphs_of_unbroken text Hclean).
  split; [ | split].
  - intros Hkept.
    destruct (String.eqb_spec (trim text) ""); [contradiction | reflexivity].
  - intros ->. reflexivity.
  - intros Hblank. now rewrite (proj2 (trim_empty_iff text) Hblank).
Qed.

Lemma unbroken_text_is_one_paragraph_witness :
  paragraphs_of (Scenarios.lines_of_a 3) = [Scenarios.lines_of_a 3].
Proof.
  destruct (unbroken_text_is_one_paragraph (Scenarios.lines_of_a 3) eq_refl)
    as [Hone _].
  apply Hone. vm_compute. discriminate.
Defined.

(** *** Splitting a text that is put together from two *)

Lemma string_of_list_ascii_app l1 l2 :
  string_of_list_ascii (l1 ++ l2)
  = (string_of_list_ascii l1 ++ string_of_list_ascii l2)%string.
Proof.
  induction l1 as [ | c l1 IH ]; cbn; [reflexivity | now rewrite IH].
Qed.

Lemma trim_leading_space c s : is_space c = true -> trim (String c s) = trim s.
Proof. intros Hc. unfold trim. cbn [trimStart]. now rewrite Hc. Qed.

Lemma trimEnd_trailing_space x c :
  is_space c = true -> trimEnd (x ++ String c EmptyString) = trimEnd x.
Proof.
  intros Hc. induction x as [ | d x IH ]; simpl.
  - now rewrite Hc.
  - now rewrite IH.
Qed.

Lemma trimStart_trailing_space s c :
  is_space c = true ->
  trimStart (s ++ String c EmptyString)
  = if blank s then EmptyString else (trimStart s ++ String c EmptyString)%string.
Proof.
  intros Hc. induction s as [ | d s IH ]; simpl.
  - now rewrite Hc.
  - destruct (is_space d); cbn [andb]; [exact IH | reflexivity].
Qed.

Lemma trim_trailing_space s c :
  is_space c = true -> trim (s ++ String c EmptyString) = trim s.
Proof.
  intros Hc. unfold trim at 1. rewrite (trimStart_trailing_space s c Hc).
  destruct (blank s) eqn:Hb.
  - symmetry. now apply trim_empty_iff.
  - now rewrite trimEnd_trailing_space.
Qed.

Lemma trim_rev_feed piece :
  trim (string_of_list_ascii (rev (line_feed :: piece)))
  = trim (string_of_list_ascii (rev piece)).
Proof.
  cbn [rev]. rewrite string_of_list_ascii_app. now apply trim_trailing_space.
Qed.

Lemma trim_rev_feed_first piece :
  trim (string_of_list_ascii (rev (piece ++ [line_feed])))
  = trim (string_of_list_ascii (rev piece)).
Proof.
  rewrite rev_app_distr. cbn [rev app string_of_list_ascii].
  now apply trim_leading_space.
Qed.

Lemma paragraphs_from_app l1 l2 :
  paragraphs_from (l1 ++ l2) = (paragraphs_from l1 ++ paragraphs_from l2)%list.
Proof. unfold paragraphs_from. now rewrite map_app, filter_app. Qed.

Lemma paragraphs_from_blank x l :
  trim x = "" -> paragraphs_from (x :: l) = paragraphs_from l.
Proof.
  intros Hx. unfold paragraphs_from. cbn [map]. rewrite Hx.
  apply filter_cons_False. intros H. exact H.
Qed.

Lemma paragraphs_from_same x y l1 l2 :
  trim x = trim y -> paragraphs_from l1 = paragraphs_from l2 ->
  paragraphs_from (x :: l1) = paragraphs_from (y :: l2).
Proof.
  intros Hxy Hl. change (x :: l1) with ([x] ++ l1)%list.
  change (y :: l2) with ([y] ++ l2)%list.
  rewrite !paragraphs_from_app, Hl. f_equal.
  unfold paragraphs_from. cbn [map]. now rewrite Hxy.
Qed.

(** The scan of a text that goes on: what was emitted over the first part,
    and the state in which the second part is scanned. *)
Lemma split_scan_app a :
  forall pending piece,
    exists out pending' piece',
      (forall b, split_scan (a ++ b) pending piece
                 = (out ++ split_scan b pending' piece')%list) /\
      split_scan a pending piece = (out ++ last_piece pending' piece')%list.
Proof.
  assert (Hcons : forall c a b,
    (String c a ++ b)%string = String c (a ++ b)%string) by reflexivity.
  induction a as [ | c a IH ]; intros pending piece.
  - exists [], pending, piece. split; [reflexivity | ].
    destruct pending; reflexivity.
  - destruct (is_line_feed c) eqn:Hc; destruct pending;
      match goal with
      | |- context [split_scan (String c a) NoLineFeed ?r] =>
          destruct (IH (if is_line_feed c then OneLineFeed else NoLineFeed)
                       (if is_line_feed c then r else c :: r))
            as (out & pending' & piece' & Hgo & Hend);
          exists out
      | |- context [split_scan (String c a) OneLineFeed ?r] =>
          destruct (IH (if is_line_feed c then Separator else NoLineFeed)
                       (if is_line_feed c then [] else c :: line_feed :: r))
            as (out & pending' & piece' & Hgo & Hend);
          exists (if is_line_feed c
                  then string_of_list_ascii (rev r) :: out else out)
      | |- context [split_scan (String c a) Separator ?r] =>
          destruct (IH (if is_line_feed c then Separator else NoLineFeed)
                       (if is_line_feed c then [] else [c]))
            as (out & pending' & piece' & Hgo & Hend);
          exists out
      end;
      exists pending', piece'; rewrite Hc in *;
      (split;
       [ intros b; rewrite Hcons; cbn [split_scan]; rewrite Hc, Hgo; reflexivity
       | cbn [split_scan]; rewrite Hc, Hend; reflexivity ]).
Qed.

(** A line feed at the very start of the first piece is trimmed away. *)
Lemma split_scan_leading_feed s :
  forall pending piece,
    pending <> Separator ->
    map trim (split_scan s pending (piece ++ [line_feed]))
    = map trim (split_scan s pending piece).
Proof.
  induction s as [ | c s IH ]; intros pending piece Hpending;
    cbn [split_scan].
  - destruct pending; [ | | contradiction]; cbn [map]; f_equal.
    + apply trim_rev_feed_first.
    + apply (trim_rev_feed_first (line_feed :: piece)).
  - destruct (is_line_feed c); destruct pending; try contradiction.
    + apply IH. discriminate.
    + cbn [map]. f_equal. apply trim_rev_feed_first.
    + apply (IH NoLineFeed (c :: piece)). discriminate.
    + apply (IH NoLineFeed (c :: line_feed :: piece)). discriminate.
Qed.

Lemma paragraphs_after_separator s :
  paragraphs_from (split_scan s Separator [])
  = paragraphs_from (split_scan s OneLineFeed []).
Proof.
  destruct s as [ | c s ]; cbn [split_scan]; [reflexivity | ].
  destruct (is_line_feed c).
  - symmetry. now apply paragraphs_from_blank.
  - unfold paragraphs_from. f_equal. symmetry.
    apply (split_scan_leading_feed s NoLineFeed [c]). discriminate.
Qed.

Lemma paragraphs_from_start s :
  paragraphs_from (split_scan s Separator [])
  = paragraphs_from (split_scan s NoLineFeed []).
Proof.
  destruct s as [ | c s ]; cbn [split_scan]; [reflexivity | ].
  destruct (is_line_feed c); [ | reflexivity].
  apply paragraphs_after_separator.
Qed.

(** Further line feeds after a separator belong to it. *)
Lemma split_scan_feeds n b :
  split_scan (feeds n b) Separator [] = split_scan b Separator [].
Proof.
  induction n as [ | n IH ]; cbn [feeds split_scan]; [reflexivity | ].
  assert (Hfeed : is_line_feed line_feed = true) by reflexivity.
  rewrite Hfeed. exact IH.
Qed.

(** A run of two or more line feeds cuts the text. *)
Lemma paragraphs_of_feeds (a b : string) (n : nat) :
  paragraphs_of (a ++ feeds (2 + n) b)
  = (paragraphs_of a ++ paragraphs_of b)%list.
Proof.
  unfold paragraphs_of, split_blank_lines.
  change (filter (fun p => nonempty p) (map trim ?l)) with (paragraphs_from l).
  destruct (split_scan_app a NoLineFeed []) as (out & pending & piece & Hgo & Hend).
  rewrite Hgo, Hend, !paragraphs_from_app.
  rewrite <- app_assoc. f_equal.
  rewrite <- paragraphs_from_start, <- (split_scan_feeds n b).
  assert (Hfeed : is_line_feed line_feed = true) by reflexivity.
  cbn [feeds Nat.add split_scan]. rewrite Hfeed.
  destruct pending; cbn [last_piece].
  - apply (paragraphs_from_app [string_of_list_ascii (rev piece)]).
  - etransitivity;
      [apply (paragraphs_from_app [string_of_list_ascii (rev piece)]) | ].
    f_equal. unfold paragraphs_from. cbn [map]. now rewrite trim_rev_feed.
  - now rewrite (paragraphs_from_blank "" [] eq_refl).
Qed.

(** X23.  Splitting composes: the paragraphs of two texts joined by a
    blank line are the paragraphs of the first followed by the paragraphs
    of the second. *)
Theorem paragraphs_of_joined (a b : string) :
  paragraphs_of (a ++ String line_feed (String line_feed b))
  = (paragraphs_of a ++ paragraphs_of b)%list.
Proof.
  unfold paragraphs_of, split_blank_lines.
  change (filter (fun p => nonempty p) (map trim ?l)) with (paragraphs_from l).
  destruct (split_scan_app a NoLineFeed []) as (out & pending & piece & Hgo & Hend).
  rewrite Hgo, Hend, !paragraphs_from_app.
  rewrite <- app_assoc. f_equal.
  rewrite <- paragraphs_from_start.
  assert (Hfeed : is_line_feed line_feed = true) by reflexivity.
  cbn [split_scan]. rewrite Hfeed.
  destruct pending; cbn [last_piece].
  - apply (paragraphs_from_app [string_of_list_ascii (rev piece)]).
  - etransitivity;
      [apply (paragraphs_from_app [string_of_list_ascii (rev piece)]) | ].
    f_equal. unfold paragraphs_from. cbn [map]. now rewrite trim_rev_feed.
  - now rewrite (paragraphs_from_blank "" [] eq_refl).
Qed.

Lemma paragraphs_of_joined_witness :
  paragraphs_of (Scenarios.two_paragraphs 2) = [Scenarios.lines_of_a 2; "b"].
Proof.
  change (Scenarios.two_paragraphs 2)
    with (Scenarios.lines_of_a 2 ++ String line_feed (String line_feed "b"))%string.
  rewrite (paragraphs_of_joined (Scenarios.lines_of_a 2) "b"). reflexivity.
Defined.

End Paragraphs.

(* ===================================================================== *)
(** ** Pagination of the exported document                                *)
(* ===================================================================== *)

Section Pagination.
Import Js Props Page.

Lemma requiredHeight_nonneg pdf paragraph :
  (0 <= requiredHeight pdf paragraph)%Q.
Proof.
  unfold requiredHeight, lineHeightFactor.
  set (n := Z.of_nat _).
  assert (Hn : (0 <= inject_Z n)%Q).
  { unfold Qle. cbn. subst n. lia. }
  nra.
Qed.

Lemma overflows_true pdf cursorY paragraph :
  overflows pdf cursorY paragraph = true <->
  (pageHeight pdf - margin_bottom < cursorY + requiredHeight pdf paragraph)%Q.
Proof.
  unfold overflows. rewrite negb_true_iff.
  destruct (Qle_bool _ _) eqn:E.
  - apply Qle_bool_iff in E. split; [discriminate | ].
    intros Hlt. exfalso. exact (Qlt_not_le _ _ Hlt E).
  - split; [intros _ | reflexivity].
    apply Qnot_le_lt. intros Hle. apply Qle_bool_iff in Hle. congruence.
Qed.

Lemma overflows_false pdf cursorY paragraph :
  overflows pdf cursorY paragraph = false <->
  (cursorY + requiredHeight pdf paragraph <= pageHeight pdf - margin_bottom)%Q.
Proof.
  unfold overflows. rewrite negb_false_iff. apply Qle_bool_iff.
Qed.

(** The pages and the cursor after one paragraph. *)
Lemma place_overflow pdf count paragraph index cursorY doc :
  overflows pdf cursorY paragraph = true ->
  pages (snd (place pdf count paragraph index (cursorY, doc))) = S (pages doc) /\
  fst (place pdf count paragraph index (cursorY, doc))
  = (margin_top + (requiredHeight pdf paragraph
       + (if (index <? count - 1)%nat then paragraphSpacing else 0)))%Q.
Proof.
  intros H. unfold place. rewrite H. split; reflexivity.
Qed.

Lemma place_fits pdf count paragraph index cursorY doc :
  overflows pdf cursorY paragraph = false ->
  pages (snd (place pdf count paragraph index (cursorY, doc))) = pages doc /\
  fst (place pdf count paragraph index (cursorY, doc))
  = (cursorY + (requiredHeight pdf paragraph
       + (if (index <? count - 1)%nat then paragraphSpacing else 0)))%Q.
Proof.
  intros H. unfold place. rewrite H. split; reflexivity.
Qed.

Lemma exported_two pdf date text p1 p2 :
  paragraphs_of text = [p1; p2] ->
  exported_pages pdf date text
  = Some (pages (snd (place pdf 2 p2 1
                        (place pdf 2 p1 0
                           (margin_top,
                            text_at ["Generated on " ++ date] (pageWidth pdf / 2)%Q
                                    (margin_top - 4)%Q
                              (text_at ["Extracted Handwritten Text"]
                                 (pageWidth pdf / 2)%Q (margin_top - 28)%Q new_doc)))))).
Proof.
  intros Hpar. unfold exported_pages, handleDownloadPdf. cbn [extractedText].
  destruct (String.eqb_spec text "") as [-> | _]; [discriminate Hpar | ].
  rewrite Hpar. cbn [length place_all].
  destruct (place pdf 2 p2 1 _) as [y doc]. reflexivity.
Qed.

(** C7, as amended.  The text is cut into paragraphs at runs of two or more
    line feeds and nowhere else: the paragraphs of two texts joined by such
    a run are those of the first followed by those of the second, and a
    text without two line feeds in a row is a single paragraph, its trimmed
    form, or none when trimming it leaves nothing.  Placing a paragraph
    adds a page exactly when the cursor plus the paragraph's required
    height exceeds the page height less the bottom margin.  And for two
    such paragraphs whose required heights together exceed the content
    height of a page, the exported document has exactly two pages when the
    first paragraph alone fits the content height. *)
Theorem export_pagination (pdf : JsPdf) (date a b : string) (n : nat) :
  paragraphs_of (a ++ feeds (2 + n) b) = (paragraphs_of a ++ paragraphs_of b)%list /\
  (has_blank_line a = false ->
   paragraphs_of a = if String.eqb (trim a) "" then [] else [trim a]) /\
  (forall count paragraph index cursorY doc,
     ((pageHeight pdf - margin_bottom < cursorY + requiredHeight pdf paragraph)%Q ->
      pages (snd (place pdf count paragraph index (cursorY, doc))) = S (pages doc)) /\
     ((cursorY + requiredHeight pdf paragraph <= pageHeight pdf - margin_bottom)%Q ->
      pages (snd (place pdf count paragraph index (cursorY, doc))) = pages doc)) /\
  (has_blank_line a = false -> trim a <> "" ->
   has_blank_line b = false -> trim b <> "" ->
   (content_height pdf < requiredHeight pdf (trim a) + requiredHeight pdf (trim b))%Q ->
   (requiredHeight pdf (trim a) <= content_height pdf)%Q ->
   exported_pages pdf date (a ++ feeds (2 + n) b) = Some 2%nat).
Proof.
  assert (Hone : forall s,
    has_blank_line s = false -> trim s <> "" -> paragraphs_of s = [trim s]).
  { intros s Hclean Hkept. rewrite (paragraphs_of_unbroken s Hclean).
    destruct (String.eqb_spec (trim s) ""); [contradiction | reflexivity]. }
  split; [apply paragraphs_of_feeds | ].
  split; [apply paragraphs_of_unbroken | ].
  split.
  - intros count paragraph index cursorY doc. split; intros H.
    + apply place_overflow, overflows_true, H.
    + apply place_fits, overflows_false, H.
  - intros Ha Hka Hb Hkb Hboth Hfirst.
    assert (Hpar : paragraphs_of (a ++ feeds (2 + n) b) = [trim a; trim b]).
    { rewrite paragraphs_of_feeds, (Hone a Ha Hka), (Hone b Hb Hkb). reflexivity. }
    rewrite (exported_two pdf date _ (trim a) (trim b) Hpar).
    match goal with
    | |- context [place pdf 2 (trim a) 0 (margin_top, ?d)] => set (doc0 := d)
    end.
    pose proof (requiredHeight_nonneg pdf (trim b)) as Hh2.
    unfold content_height in *.
    assert (H1 : overflows pdf margin_top (trim a) = false).
    { apply overflows_false. unfold margin_top, margin_bottom in *. lra. }
    destruct (place_fits pdf 2 (trim a) 0 margin_top doc0 H1) as [Hp Hy].
    destruct (place pdf 2 (trim a) 0 (margin_top, doc0)) as [y1 doc1].
    cbn [fst snd] in Hp, Hy. cbn [Nat.ltb Nat.leb Nat.sub] in Hy.
    assert (H2 : overflows pdf y1 (trim b) = true).
    { apply overflows_true. subst y1.
      unfold margin_top, margin_bottom, paragraphSpacing in *. lra. }
    destruct (place_overflow pdf 2 (trim b) 1 y1 doc1 H2) as [Hp2 _].
    rewrite Hp2, Hp. reflexivity.
Qed.

(** Thirty-three lines and one more line: the first paragraph fits, the two
    together do not, and the document has two pages. *)
Lemma export_pagination_witness :
  exported_pages Scenarios.a4_unwrapped "1 January 2025 at 10:00"
    (Scenarios.two_paragraphs 33) = Some 2%nat.
Proof.
  destruct (export_pagination Scenarios.a4_unwrapped "1 January 2025 at 10:00"
              (Scenarios.lines_of_a 33) "b" 0)
    as (_ & _ & _ & Htwo).
  apply Htwo.
  - vm_compute. reflexivity.
  - vm_compute. discriminate.
  - vm_compute. reflexivity.
  - vm_compute. discriminate.
  - vm_compute. reflexivity.
  - vm_compute. discriminate.
Defined.

(** C7 as stated fails: thirty-four lines do not fit the content height of
    an A4 page; followed by a second paragraph they give two paragraphs
    that together exceed it, and the document has three pages, not two:
    the overflow test of line 182 adds a page before the first paragraph
    as well. *)
Lemma long_first_paragraph_three_pages :
  paragraphs_of (Scenarios.two_paragraphs 34) = [Scenarios.lines_of_a 34; "b"] /\
  (content_height Scenarios.a4_unwrapped
   < requiredHeight Scenarios.a4_unwrapped (Scenarios.lines_of_a 34)
     + requiredHeight Scenarios.a4_unwrapped "b")%Q /\
  exported_pages Scenarios.a4_unwrapped "1 January 2025 at 10:00"
    (Scenarios.two_paragraphs 34) = Some 3%nat /\
  exported_pages Scenarios.a4_unwrapped "1 January 2025 at 10:00"
    (Scenarios.two_paragraphs 34) <> Some 2%nat.
Proof.
  split; [vm_compute; reflexivity | ].
  split; [vm_compute; reflexivity | ].
  split; [vm_compute; reflexivity | ].
  vm_compute. discriminate.
Qed.

End Pagination.

(* ===================================================================== *)
(** ** Layout of the exported document                                    *)
(* ===================================================================== *)

Section Layout.
Import Js Props Page.

Lemma spacing_after_nonneg count index : (0 <= spacing_after count index)%Q.
Proof.
  unfold spacing_after, paragraphSpacing.
  destruct (index <? count - 1)%nat; [discriminate | apply Qle_refl].
Qed.

Lemma height_nonneg pdf paragraph : (0 <= requiredHeight pdf paragraph)%Q.
Proof.
  unfold requiredHeight, lineHeightFactor.
  set (n := Z.of_nat _).
  assert (Hn : (0 <= inject_Z n)%Q) by (unfold Qle; cbn; subst n; lia).
  nra.
Qed.

Lemma extent_nonneg pdf count paragraphs :
  forall index, (0 <= extent pdf count paragraphs index)%Q.
Proof.
  induction paragraphs as [ | p rest IH ]; intros index; cbn [extent].
  - apply Qle_refl.
  - pose proof (height_nonneg pdf p). pose proof (spacing_after_nonneg count index).
    specialize (IH (S index)). lra.
Qed.

Lemma overflows_iff pdf cursorY paragraph :
  (overflows pdf cursorY paragraph = true <->
   (pageHeight pdf - margin_bottom < cursorY + requiredHeight pdf paragraph)%Q) /\
  (overflows pdf cursorY paragraph = false <->
   (cursorY + requiredHeight pdf paragraph <= pageHeight pdf - margin_bottom)%Q).
Proof.
  unfold overflows.
  destruct (Qle_bool _ _) eqn:E; cbn [negb].
  - apply Qle_bool_iff in E. repeat split; try discriminate; auto.
    intros Hlt. exfalso. exact (Qlt_not_le _ _ Hlt E).
  - assert (Hlt : (pageHeight pdf - margin_bottom
                   < cursorY + requiredHeight pdf paragraph)%Q).
    { apply Qnot_le_lt. intros Hle. apply Qle_bool_iff in Hle. congruence. }
    repeat split; auto; try discriminate.
    intros Hle. exfalso. exact (Qlt_not_le _ _ Hlt Hle).
Qed.

(** One turn of the loop, spelled out. *)
Lemma place_step pdf count paragraph index cursorY doc :
  place pdf count paragraph index (cursorY, doc)
  = if overflows pdf cursorY paragraph
    then ((margin_top + (requiredHeight pdf paragraph + spacing_after count index))%Q,
          text_at (splitTextToSize pdf paragraph (contentWidth pdf))
                  margin_left margin_top (addPage doc))
    else ((cursorY + (requiredHeight pdf paragraph + spacing_after count index))%Q,
          text_at (splitTextToSize pdf paragraph (contentWidth pdf))
                  margin_left cursorY doc).
Proof.
  unfold place, spacing_after. destruct (overflows pdf cursorY paragraph); reflexivity.
Qed.

Lemma place_all_pages pdf count paragraphs :
  forall index cursorY doc,
    (pages doc
     <= pages (snd (place_all pdf count paragraphs index (cursorY, doc)))
     <= pages doc + length paragraphs)%nat.
Proof.
  induction paragraphs as [ | p rest IH ]; intros index cursorY doc;
    cbn [place_all length].
  - cbn [snd]. lia.
  - rewrite place_step.
    destruct (overflows pdf cursorY p);
      match goal with
      | |- context [place_all _ _ _ ?i (?y, ?d)] =>
          specialize (IH i y d); cbn [pages text_at addPage] in IH |- *
      end; lia.
Qed.

Lemma place_all_fits pdf count paragraphs :
  forall index cursorY doc,
    (cursorY + extent pdf count paragraphs index
     <= pageHeight pdf - margin_bottom)%Q ->
    pages (snd (place_all pdf count paragraphs index (cursorY, doc))) = pages doc.
Proof.
  induction paragraphs as [ | p rest IH ]; intros index cursorY doc Hfit;
    cbn [place_all extent] in *; [reflexivity | ].
  pose proof (extent_nonneg pdf count rest (S index)) as Hrest.
  pose proof (spacing_after_nonneg count index) as Hsp.
  rewrite place_step.
  assert (Hp : overflows pdf cursorY p = false) by (apply overflows_iff; lra).
  rewrite Hp. rewrite IH; [reflexivity | lra].
Qed.

Lemma place_all_overflows pdf count paragraphs :
  forall index cursorY doc,
    (index + length paragraphs = count)%nat ->
    paragraphs <> [] ->
    (pageHeight pdf - margin_bottom
     < cursorY + extent pdf count paragraphs index)%Q ->
    (pages doc
     < pages (snd (place_all pdf count paragraphs index (cursorY, doc))))%nat.
Proof.
  induction paragraphs as [ | p rest IH ]; intros index cursorY doc Hcount Hne Hover;
    [contradiction | ].
  cbn [place_all extent length] in *. rewrite place_step.
  destruct (overflows pdf cursorY p) eqn:Hp.
  - match goal with
    | |- context [place_all _ _ _ ?i (?y, ?d)] =>
        pose proof (place_all_pages pdf count rest i y d) as Hmono
    end.
    cbn [pages text_at addPage] in Hmono. lia.
  - apply overflows_iff in Hp.
    destruct rest as [ | q rest' ].
    + exfalso. cbn [extent] in Hover. unfold spacing_after in Hover.
      replace (index <? count - 1)%nat with false in Hover
        by (symmetry; apply Nat.ltb_ge; cbn [length] in Hcount; lia).
      lra.
    + match goal with
      | |- context [place_all _ _ _ ?i (?y, ?d)] =>
          specialize (IH i y d)
      end.
      cbn [pages text_at] in IH. apply IH.
      * cbn [length] in *. lia.
      * discriminate.
      * lra.
Qed.

Lemma place_all_drawn pdf count paragraphs :
  forall index cursorY doc,
    (margin_top <= cursorY)%Q ->
    exists middle,
      drawn (snd (place_all pdf count paragraphs index (cursorY, doc)))
      = (drawn doc ++ middle)%list /\
      Forall2 (well_placed pdf) paragraphs middle /\
      saved_as (snd (place_all pdf count paragraphs index (cursorY, doc)))
      = saved_as doc.
Proof.
  induction paragraphs as [ | p rest IH ]; intros index cursorY doc Htop;
    cbn [place_all].
  - exists []. cbn [snd]. rewrite app_nil_r. repeat split. constructor.
  - pose proof (height_nonneg pdf p) as Hh.
    pose proof (spacing_after_nonneg count index) as Hsp.
    rewrite place_step.
    destruct (overflows pdf cursorY p) eqn:Hp;
      match goal with
      | |- context [place_all _ _ _ ?i (?y, ?d)] =>
          destruct (IH i y d) as (middle & Hdrawn & Hall & Hsaved);
            [lra | rewrite Hdrawn, Hsaved; cbn [drawn saved_as text_at addPage] ]
      end.
    + eexists (_ :: middle). rewrite <- app_assoc.
      split; [reflexivity | ]. split; [ | reflexivity].
      constructor; [ | exact Hall].
      unfold well_placed, content_height. cbn [lines at_x at_y].
      repeat split; [apply Qle_refl | ]. intros Hfit. lra.
    + eexists (_ :: middle). rewrite <- app_assoc.
      split; [reflexivity | ]. split; [ | reflexivity].
      constructor; [ | exact Hall].
      unfold well_placed. cbn [lines at_x at_y].
      repeat split; [exact Htop | ]. intros _. now apply overflows_iff.
Qed.

(** The document [handleDownloadPdf] saves, in terms of the loop. *)
Lemma handleDownloadPdf_run pdf date st :
  extractedText st <> "" ->
  handleDownloadPdf pdf date st
  = Some (save "extracted-text.pdf"
            (text_at ["Generated by AI Handwritten Reader"]
               (pageWidth pdf / 2)%Q (pageHeight pdf - 40)%Q
               (snd (place_all pdf (length (paragraphs_of (extractedText st)))
                       (paragraphs_of (extractedText st)) 0
                       (margin_top, headed pdf date))))).
Proof.
  intros Htext. unfold handleDownloadPdf, headed.
  destruct (String.eqb_spec (extractedText st) ""); [contradiction | ].
  destruct (place_all _ _ _ _ _) as [y doc]. reflexivity.
Qed.

(** X21.  The page count of the export.  A text that is not empty is
    exported to a document of at least one page and at most one page more
    than it has paragraphs; and when it has a paragraph, the document has
    exactly one page if and only if the paragraphs with their spacing fit
    between the top and the bottom margin. *)
Theorem export_page_count (pdf : JsPdf) (date text : string) :
  text <> "" ->
  exists n,
    exported_pages pdf date text = Some n /\
    (1 <= n <= 1 + length (paragraphs_of text))%nat /\
    (paragraphs_of text <> [] ->
     (n = 1%nat <->
      (margin_top + extent pdf (length (paragraphs_of text)) (paragraphs_of text) 0
       <= pageHeight pdf - margin_bottom)%Q)).
Proof.
  intros Htext. unfold exported_pages.
  rewrite handleDownloadPdf_run by exact Htext.
  cbn [extractedText option_map pages save text_at].
  set (ps := paragraphs_of text).
  eexists. split; [reflexivity | ].
  pose proof (place_all_pages pdf (length ps) ps 0 margin_top (headed pdf date))
    as Hbounds.
  change (pages (headed pdf date)) with 1%nat in Hbounds.
  split; [lia | ].
  intros Hne. split.
  - intros Hone.
    destruct (Qlt_le_dec (pageHeight pdf - margin_bottom)
                (margin_top + extent pdf (length ps) ps 0)) as [Hover | Hfit];
      [ | exact Hfit].
    pose proof (place_all_overflows pdf (length ps) ps 0 margin_top
                  (headed pdf date) eq_refl Hne Hover) as Hmore.
    change (pages (headed pdf date)) with 1%nat in Hmore. lia.
  - intros Hfit.
    now rewrite (place_all_fits pdf (length ps) ps 0 margin_top
                   (headed pdf date) Hfit).
Qed.

Lemma export_page_count_witness :
  exported_pages Scenarios.a4_unwrapped "1 January 2025 at 10:00"
    (Scenarios.two_paragraphs 3) = Some 1%nat.
Proof.
  destruct (export_page_count Scenarios.a4_unwrapped "1 January 2025 at 10:00"
              (Scenarios.two_paragraphs 3)) as (n & Hpages & _ & Hone).
  - discriminate.
  - rewrite Hpages. f_equal. apply Hone.
    + vm_compute. discriminate.
    + vm_compute. discriminate.
Defined.

(** X22.  What the export draws.  For a text that is not empty the saved
    document, named [extracted-text.pdf], holds the title and the date line
    on page one, then one [doc.text] call per paragraph, in order, then the
    footer on the last page.  Each paragraph is drawn with its own lines at
    the left margin, not above the top margin, and every paragraph that
    fits the content height ends above the bottom margin. *)
Theorem export_draws_every_paragraph (pdf : JsPdf) (date : string) (st : State) :
  extractedText st <> "" ->
  exists doc middle,
    handleDownloadPdf pdf date st = Some doc /\
    drawn doc
    = (mkDrawn 1 (pageWidth pdf / 2)%Q (margin_top - 28)%Q
         ["Extracted Handwritten Text"]
       :: mkDrawn 1 (pageWidth pdf / 2)%Q (margin_top - 4)%Q
            [("Generated on " ++ date)%string]
       :: middle
       ++ [mkDrawn (pages doc) (pageWidth pdf / 2)%Q (pageHeight pdf - 40)%Q
             ["Generated by AI Handwritten Reader"]])%list /\
    Forall2 (well_placed pdf) (paragraphs_of (extractedText st)) middle /\
    saved_as doc = Some "extracted-text.pdf".
Proof.
  intros Htext. rewrite handleDownloadPdf_run by exact Htext.
  destruct (place_all_drawn pdf (length (paragraphs_of (extractedText st)))
              (paragraphs_of (extractedText st)) 0 margin_top (headed pdf date))
    as (middle & Hdrawn & Hall & _); [apply Qle_refl | ].
  eexists. exists middle. split; [reflexivity | ].
  cbn [drawn pages saved_as save text_at]. rewrite Hdrawn.
  split; [ | split; [exact Hall | reflexivity]].
  cbn [headed drawn text_at new_doc pages app]. reflexivity.
Qed.

Lemma export_draws_every_paragraph_witness :
  exists doc,
    handleDownloadPdf Scenarios.a4_unwrapped "1 January 2025 at 10:00"
      Scenarios.summarized = Some doc /\
    length (drawn doc) = 4%nat.
Proof.
  destruct (export_draws_every_paragraph Scenarios.a4_unwrapped
              "1 January 2025 at 10:00" Scenarios.summarized)
    as (doc & middle & Hdoc & Hdrawn & Hall & _).
  - discriminate.
  - exists doc. split; [exact Hdoc | ].
    rewrite Hdrawn. apply Forall2_length in Hall.
    cbn [length]. rewrite length_app, <- Hall. reflexivity.
Defined.

(** *** A text of white space only *)

Lemma blank_of_list l : blank (string_of_list_ascii l) = forallb is_space l.
Proof.
  induction l as [ | c l IH ]; cbn [string_of_list_ascii blank forallb];
    [reflexivity | now rewrite IH].
Qed.

Lemma forallb_space_rev l :
  forallb is_space l = true -> forallb is_space (rev l) = true.
Proof.
  induction l as [ | c l IH ]; cbn [rev forallb]; [reflexivity | ].
  intros H. apply andb_true_iff in H as [Hc Hl].
  rewrite forallb_app. cbn [forallb]. now rewrite IH, Hc.
Qed.

Lemma split_scan_blank s :
  forall pending piece,
    blank s = true ->
    forallb is_space piece = true ->
    Forall (fun q => blank q = true) (split_scan s pending piece).
Proof.
  assert (Hemit : forall piece,
    forallb is_space piece = true ->
    blank (string_of_list_ascii (rev piece)) = true).
  { intros piece H. rewrite blank_of_list. now apply forallb_space_rev. }
  induction s as [ | c s IH ]; intros pending piece Hs Hpiece;
    cbn [split_scan blank] in *.
  - destruct pending; constructor; try constructor; auto.
  - apply andb_true_iff in Hs as [Hc Hs].
    destruct (is_line_feed c); destruct pending;
      repeat first [ apply IH | constructor | apply Hemit ];
      cbn [forallb]; rewrite ?Hc, ?Hpiece; auto.
Qed.

Lemma blank_text_no_paragraph text :
  blank text = true -> paragraphs_of text = [].
Proof.
  intros Hblank. unfold paragraphs_of, split_blank_lines.
  pose proof (split_scan_blank text NoLineFeed [] Hblank eq_refl) as Hall.
  induction Hall as [ | q l Hq _ IH ]; cbn [map]; [reflexivity | ].
  rewrite filter_cons_False; [exact IH | ].
  rewrite (proj2 (trim_empty_iff q) Hq). intros H. exact H.
Qed.

(** X24.  A transcription that is not empty but holds white space only
    can be exported; the document then has no paragraph: one page with the
    title, the date line and the footer. *)
Theorem blank_text_exports_header_only (pdf : JsPdf) (date : string) (st : State) :
  extractedText st <> "" ->
  blank (extractedText st) = true ->
  exists doc,
    handleDownloadPdf pdf date st = Some doc /\
    pages doc = 1%nat /\
    map lines (drawn doc)
    = [ ["Extracted Handwritten Text"];
        [("Generated on " ++ date)%string];
        ["Generated by AI Handwritten Reader"] ].
Proof.
  intros Htext Hblank. rewrite handleDownloadPdf_run by exact Htext.
  rewrite (blank_text_no_paragraph _ Hblank).
  eexists. split; [reflexivity | ]. split; reflexivity.
Qed.

Lemma blank_text_exports_header_only_witness :
  exported_pages Scenarios.a4_unwrapped "1 January 2025 at 10:00" "   "
  = Some 1%nat.
Proof.
  unfold exported_pages.
  destruct (blank_text_exports_header_only Scenarios.a4_unwrapped
              "1 January 2025 at 10:00"
              (mkState None "   " false "" "" false None "auto"))
    as (doc & -> & Hpages & _); [discriminate | reflexivity | ].
  cbn [option_map]. now rewrite Hpages.
Defined.

End Layout.
